(** * pull_matches.py: the match-data reconciliation pipeline

    A shallow embedding of [src/pull_matches.py] and the properties its
    specification states about it.

    - Python [str] values are sequences of Unicode code points
      ([str := list N]).
    - The interpreter's character tables and parsers ([str.isalnum],
      [str.isspace], [int(str)], [repr] of a string and of a numpy
      integer) are not part of the program; they are the fields of the
      class [Builtins], which fixes the character tables on ASCII only.
    - Python values that a provider table can hold are the type [pyval].
    - A [pandas.Series] is a finite map from labels to values, a
      [pandas.DataFrame] is a list of column labels with a list of rows;
      the dtype of a column is read off its cells.
    - The library calls of the program are modelled with the checks that
      make them raise: [pd.merge] (keys, key dtypes, unhashable keys,
      suffixes), [os.makedirs] (empty path, file of that name) and
      [json.dump] (values it cannot write).
    - Exceptions, the file system and the sequence of provider calls are
      threaded through a state-and-error monad [M].  Console output
      ([print], [warnings.filterwarnings]) is not modelled. *)

From stdpp Require Import gmap strings list fin_maps.
From Stdlib Require Import ZArith Ascii.
From Stdlib Require String DecimalString.

Local Open Scope Z_scope.
Local Open Scope list_scope.

(* ================================================================== *)
(** ** Strings *)
(* ================================================================== *)

Abbreviation char := N (only parsing).
Abbreviation str := (list N) (only parsing).

(** A Python string literal, written as a Rocq string of ASCII characters. *)
Definition lit (s : string) : str :=
  N_of_ascii <$> String.list_ascii_of_string s.

(** The ASCII part of [str.isalnum]: digits, upper and lower case letters. *)
Definition ascii_isalnum (c : char) : bool :=
  ((48 <=? c) && (c <=? 57) || (65 <=? c) && (c <=? 90)
   || (97 <=? c) && (c <=? 122))%N.

(** The ASCII part of [str.isspace]: TAB, LF, VT, FF, CR, the four
    separators FS, GS, RS, US and the space. *)
Definition ascii_isspace (c : char) : bool :=
  ((9 <=? c) && (c <=? 13) || (28 <=? c) && (c <=? 32))%N.

(** What the program takes from the interpreter. *)
Class Builtins := {
  (** [c.isalnum()] for a one-character string [c] *)
  isalnum : char -> bool;
  (** [c.isspace()], the test [str.rstrip()] uses *)
  isspace : char -> bool;
  (** [int(s)] for a string [s]; [None] is [ValueError] *)
  int_of_str : str -> option Z;
  (** [repr(s)] for a string [s] *)
  repr_str : str -> str;
  (** [repr(n)] for a [numpy.int64]: its digits under numpy 1,
      [np.int64(..)] around them under numpy 2 *)
  repr_int64 : Z -> str;
  isalnum_ascii : forall c, (c < 128)%N -> isalnum c = ascii_isalnum c;
  isspace_ascii : forall c, (c < 128)%N -> isspace c = ascii_isspace c
}.

Section Sanitizers.
Context `{Builtins}.

(** [s.rstrip()]: drop the longest suffix of whitespace characters. *)
Fixpoint rstrip (s : str) : str :=
  match s with
  | [] => []
  | c :: s' =>
      match rstrip s' with
      | [] => if isspace c then [] else [c]
      | r => c :: r
      end
  end.

(** [c in (' ', '_', '-')] *)
Definition is_separator (c : char) : bool :=
  bool_decide (c ∈ [32%N; 95%N; 45%N]).

(** [sanitize_filename], line 30:
    ["".join(c for c in filename
             if c.isalnum() or c in (' ', '_', '-')).rstrip()] *)
Definition sanitize_filename (filename : str) : str :=
  rstrip (filter (λ c, isalnum c || is_separator c = true) filename).

(** [sanitize_team_name], line 42:
    ["".join(c for c in team_name if c.isalnum())] *)
Definition sanitize_team_name (team_name : str) : str :=
  filter (λ c, isalnum c = true) team_name.

End Sanitizers.

(** [str(z)] for an [int]: decimal digits with a minus sign when negative. *)
Definition str_of_Z (z : Z) : str :=
  lit (DecimalString.NilZero.string_of_int (Z.to_int z)).

(** The value of a string of decimal digits, most significant first. *)
Fixpoint digits_value (acc : Z) (s : str) : option Z :=
  match s with
  | [] => Some acc
  | c :: s' =>
      if ((48 <=? c) && (c <=? 57))%N
      then digits_value (10 * acc + (Z.of_N c - 48)) s'
      else None
  end.

Definition ascii_int_of_str (s : str) : option Z :=
  match s with
  | [] | [45%N] => None
  | 45%N :: d => Z.opp <$> digits_value 0 d
  | _ => digits_value 0 s
  end.

(** The interpreter restricted to ASCII: every code point from 128 on is
    neither alphanumeric nor whitespace, [int] reads an optional minus sign
    and decimal digits, [repr] puts the string between single quotes and
    prints a numpy integer as numpy 2 does. *)
Definition ascii_builtins : Builtins.
Proof.
  refine {| isalnum c := (c <? 128)%N && ascii_isalnum c;
            isspace c := (c <? 128)%N && ascii_isspace c;
            int_of_str := ascii_int_of_str;
            repr_str s := 39%N :: s ++ [39%N];
            repr_int64 z := lit "np.int64(" ++ str_of_Z z ++ lit ")" |}.
  - intros c Hc. apply N.ltb_lt in Hc. now rewrite Hc.
  - intros c Hc. apply N.ltb_lt in Hc. now rewrite Hc.
Defined.

(* ================================================================== *)
(** ** Python values, exceptions *)
(* ================================================================== *)

(** The values a cell of a provider table holds.  [PInt] is a Python
    [int]: what [int(..)] returns, what a list holds, what a column of
    mixed cells holds.  [PInt64] is a [numpy.int64]: what a cell of an
    integer column is when it is read.  [PNaN] is the float [nan], which
    pandas writes into a cell that has no value; no other float is
    modelled. *)
#[warnings="-register-all"]
Inductive pyval :=
| PInt (z : Z)
| PStr (s : str)
| PNone
| PNaN
| PList (l : list pyval)
| PInt64 (z : Z).

Inductive pytype := TInt | TStr | TNoneType | TFloat | TList | TInt64.

Definition py_type (v : pyval) : pytype :=
  match v with
  | PInt _ => TInt
  | PStr _ => TStr
  | PNone => TNoneType
  | PNaN => TFloat
  | PList _ => TList
  | PInt64 _ => TInt64
  end.

Inductive exn :=
| KeyError | IndexError | ValueError | TypeError | AttributeError
| FileExistsError | IsADirectoryError | ProviderError
| FileNotFoundError | MergeError.

Inductive Result (A : Type) :=
| Ok (a : A)
| Raise (e : exn).
Arguments Ok {A} a.
Arguments Raise {A} e.

Definition rbind {A B} (r : Result A) (k : A -> Result B) : Result B :=
  match r with
  | Ok a => k a
  | Raise e => Raise e
  end.

Declare Scope result_scope.
Delimit Scope result_scope with result.
Notation "x <- r ;; k" := (rbind r (fun x => k))
  (at level 100, r at next level, right associativity) : result_scope.

#[global] Instance pytype_eq_dec : EqDecision pytype.
Proof. solve_decision. Defined.

#[global] Instance exn_eq_dec : EqDecision exn.
Proof. solve_decision. Defined.

#[global] Instance Result_eq_dec {A} `{EqDecision A} : EqDecision (Result A).
Proof. solve_decision. Defined.

(** Equality of values is decidable; the join compares keys with it. *)
#[global] Instance pyval_eq_dec : EqDecision pyval.
Proof.
  refine (fix go (a b : pyval) {struct a} : Decision (a = b) :=
            match a, b with
            | PInt x, PInt y => cast_if (decide (x = y))
            | PStr s, PStr t => cast_if (decide (s = t))
            | PNone, PNone => left eq_refl
            | PNaN, PNaN => left eq_refl
            | PInt64 x, PInt64 y => cast_if (decide (x = y))
            | PList l, PList m =>
                cast_if ((fix go_list (l m : list pyval) {struct l}
                          : Decision (l = m) :=
                            match l, m with
                            | [], [] => left eq_refl
                            | x :: l', y :: m' =>
                                cast_if_and (go x y) (go_list l' m')
                            | _, _ => right _
                            end) l m)
            | _, _ => right _
            end); congruence.
Defined.

(** [sep.join(parts)] *)
Fixpoint str_join (sep : str) (parts : list str) : str :=
  match parts with
  | [] => []
  | [p] => p
  | p :: ps => p ++ sep ++ str_join sep ps
  end.

Section Conversions.
Context `{Builtins}.

(** [repr(v)] *)
Fixpoint py_repr (v : pyval) : str :=
  match v with
  | PInt z => str_of_Z z
  | PStr s => repr_str s
  | PNone => lit "None"
  | PNaN => lit "nan"
  | PList l => lit "[" ++ str_join (lit ", ") (List.map py_repr l) ++ lit "]"
  | PInt64 z => repr_int64 z
  end.

(** [str(v)], which is also what an f-string field [{v}] expands to *)
Definition py_str (v : pyval) : str :=
  match v with
  | PStr s => s
  | PInt64 z => str_of_Z z
  | _ => py_repr v
  end.

(** [int(v)] *)
Definition py_int (v : pyval) : Result Z :=
  match v with
  | PInt z | PInt64 z => Ok z
  | PStr s => match int_of_str s with
              | Some z => Ok z
              | None => Raise ValueError
              end
  | PNaN => Raise ValueError
  | PNone | PList _ => Raise TypeError
  end.

(** [t.isalnum()] for a string of any length *)
Definition str_isalnum (t : str) : bool :=
  negb (bool_decide (t = [])) && forallb isalnum t.

(** ["".join(c for c in l if c.isalnum())] over the elements of a list *)
Fixpoint join_alnum (l : list pyval) : Result str :=
  match l with
  | [] => Ok []
  | PStr t :: l' =>
      match join_alnum l' with
      | Ok r => Ok (if str_isalnum t then t ++ r else r)
      | Raise e => Raise e
      end
  | _ :: _ => Raise AttributeError
  end.

(** [sanitize_team_name] called on a cell: a string is filtered
    character by character, a list element by element, anything else is
    not iterable. *)
Definition sanitize_team_name_dyn (v : pyval) : Result str :=
  match v with
  | PStr s => Ok (sanitize_team_name s)
  | PList l => join_alnum l
  | PInt _ | PInt64 _ | PNone | PNaN => Raise TypeError
  end.

End Conversions.

(* ================================================================== *)
(** ** pandas: Series and DataFrame *)
(* ================================================================== *)

(** One row of a table: column label to cell. *)
Abbreviation Series := (gmap (list N) pyval) (only parsing).

Record DataFrame := {
  columns : list str;
  rows : list (list pyval)
}.

(** Every row has one cell per column and no label is used twice. *)
Definition wf_frame (df : DataFrame) : Prop :=
  NoDup (columns df) /\ Forall (λ r, length r = length (columns df)) (rows df).

(** [df.empty]: one of the two axes has length zero. *)
Definition df_empty (df : DataFrame) : bool :=
  bool_decide (columns df = []) || bool_decide (rows df = []).

(** [df.iloc[0]] *)
Definition iloc0 (df : DataFrame) : Result Series :=
  match rows df with
  | [] => Raise IndexError
  | r :: _ => Ok (list_to_map (zip (columns df) r))
  end.

(** [row[key]] *)
Definition getitem (row : Series) (key : str) : Result pyval :=
  match row !! key with
  | Some v => Ok v
  | None => Raise KeyError
  end.

(** [row.get(key, default)] *)
Definition series_get (row : Series) (key : str) (dflt : pyval) : pyval :=
  default dflt (row !! key).

(** [df.rename(columns={old: new}, inplace=True)]: every label [old]
    becomes [new]; a table without the label is left as it is. *)
Definition rename_label (old new c : str) : str :=
  if decide (c = old) then new else c.

Definition rename_column (old new : str) (df : DataFrame) : DataFrame :=
  {| columns := rename_label old new <$> columns df;
     rows := rows df |}.

(** The cell of row [r] under the label [c], for a table whose labels are
    [cols]; a label the table does not have reads as NaN. *)
Fixpoint cell (cols : list str) (r : list pyval) (c : str) : pyval :=
  match cols, r with
  | c' :: cols', v :: r' => if decide (c' = c) then v else cell cols' r' c
  | _, _ => PNaN
  end.

(** The cells of the column [k], top to bottom. *)
Definition column_cells (df : DataFrame) (k : str) : list pyval :=
  (λ r, cell (columns df) r k) <$> rows df.

(** A join key must name exactly one column of the table
    ([_get_label_or_level_values]): [KeyError] when no column has the
    label, [ValueError] when more than one has. *)
Definition key_check (cols : list str) (k : str) : Result unit :=
  match length (filter (λ c, c = k) cols) with
  | O => Raise KeyError
  | 1%nat => Ok tt
  | _ => Raise ValueError
  end.

(** [_get_merge_keys] takes the keys one by one and looks each up in the
    right table first, then in the left. *)
Fixpoint keys_check (lcols rcols : list str) (on : list str) : Result unit :=
  match on with
  | [] => Ok tt
  | k :: on' =>
      match key_check rcols k with
      | Raise e => Raise e
      | Ok _ =>
          match key_check lcols k with
          | Raise e => Raise e
          | Ok _ => keys_check lcols rcols on'
          end
      end
  end.

Definition is_int_cell (v : pyval) : bool :=
  match v with PInt _ | PInt64 _ => true | _ => false end.

Definition is_str_cell (v : pyval) : bool :=
  match v with PStr _ => true | _ => false end.

Definition is_list_cell (v : pyval) : bool :=
  match v with PList _ => true | _ => false end.

(** The dtype of a column is read off its cells: a column whose cells are
    all numpy integers is an [int64] column, one whose cells are all NaN
    a [float64] column; every other column, and a column without cells,
    is an [object] column. *)
Definition int64_column (cells : list pyval) : bool :=
  match cells with
  | [] => false
  | _ => forallb (λ v, match v with PInt64 _ => true | _ => false end) cells
  end.

Definition float64_column (cells : list pyval) : bool :=
  match cells with
  | [] => false
  | _ => forallb (λ v, match v with PNaN => true | _ => false end) cells
  end.

Definition numeric_column (cells : list pyval) : bool :=
  int64_column cells || float64_column cells.

(** [_maybe_coerce_merge_keys] for one key: nothing is checked when one
    side has no rows; a numeric column against an [object] column is
    refused unless the [object] column holds an integer (its inferred
    type is then [integer] or [mixed-integer], not [string] or
    [mixed]). *)
Definition dtype_clash (lk rk : list pyval) : bool :=
  match lk, rk with
  | [], _ | _, [] => false
  | _, _ =>
      (numeric_column lk && negb (numeric_column rk)
       && negb (existsb is_int_cell rk))
      || (numeric_column rk && negb (numeric_column lk)
          && negb (existsb is_int_cell lk))
  end.

(** The keys are hashed when both tables have rows; a list is not
    hashable. *)
Definition unhashable_key (lk rk : list pyval) : bool :=
  match lk, rk with
  | [], _ | _, [] => false
  | _, _ => existsb is_list_cell lk || existsb is_list_cell rk
  end.

(** A key cell as the join compares it: a numpy integer equals the
    Python integer of its value, and the null values [None] and NaN
    match each other. *)
Definition key_norm (v : pyval) : pyval :=
  match v with
  | PInt64 z => PInt z
  | PNone => PNaN
  | _ => v
  end.

(** The join key of a row: its cells under the labels in [on]. *)
Definition key_of (cols : list str) (on : list str) (r : list pyval)
  : list pyval :=
  (λ k, key_norm (cell cols r k)) <$> on.

(** The columns of the right table that are not join keys. *)
Definition other_columns (on : list str) (cols : list str) : list str :=
  filter (λ c, c ∉ on) cols.

(** The rows [pd.merge(.., how="left")] makes from one left row: one per
    right row with the same key, in the order of the right table, or the
    left row padded with NaN when no right row has its key. *)
Definition left_join_row (lcols rcols on : list str)
    (rrows : list (list pyval)) (l : list pyval) : list (list pyval) :=
  match filter (λ e, key_of rcols on e = key_of lcols on l) rrows with
  | [] => [l ++ replicate (length (other_columns on rcols)) PNaN]
  | es => (λ e, l ++ (cell rcols e <$> other_columns on rcols)) <$> es
  end.

(** The labels [_items_overlap_with_suffix] refuses: those that are there
    twice after the suffixes are added and were not there twice before
    ([llabels.duplicated() & ~left.duplicated()]). *)
Fixpoint suffix_dups (seen_new seen_old new old : list str) : list str :=
  match new, old with
  | n :: new', o :: old' =>
      (if decide ((n ∈ seen_new) ∧ (o ∉ seen_old)) then [n] else [])
      ++ suffix_dups (n :: seen_new) (o :: seen_old) new' old'
  | _, _ => []
  end.

(** [pd.merge(left, right, how="left", on=on)] for a left table with
    rows, which is how line 95 calls it.  In the order of pandas: the
    keys are looked up, their dtypes compared, the rows joined, and the
    labels that both tables have outside the key get the suffixes [_x]
    and [_y].  The cells of the result are the cells of the two tables:
    where pandas changes the dtype of a column on the way (an [int64]
    column into a [float64] column when NaN is written into it, a key
    column into an [object] column when the other table has one), the
    cell here stands for its value; [dtypes_kept] below says when no
    column changes. *)
Definition pd_merge_left (left right : DataFrame) (on : list str)
  : Result DataFrame :=
  let others := other_columns on (columns right) in
  let llabels := (λ c, if decide ((c ∉ on) ∧ (c ∈ columns right))
                       then c ++ lit "_x" else c) <$> columns left in
  let rlabels := (λ c, if decide (c ∈ columns left)
                       then c ++ lit "_y" else c) <$> others in
  match keys_check (columns left) (columns right) on with
  | Raise e => Raise e
  | Ok _ =>
      if existsb (λ k, dtype_clash (column_cells left k)
                         (column_cells right k)) on
      then Raise ValueError
      else if existsb (λ k, unhashable_key (column_cells left k)
                              (column_cells right k)) on
      then Raise TypeError
      else if bool_decide (suffix_dups [] [] llabels (columns left)
                           ++ suffix_dups [] [] rlabels others = [])
      then Ok {| columns := llabels ++ rlabels;
                 rows := rows left ≫=
                           left_join_row (columns left) (columns right) on
                             (rows right) |}
      else Raise MergeError
  end.

(** Lines 94-95: the frame table gets its [event_uuid] column renamed to
    [id] and is joined with the event table. *)
Definition merge_frames (frames_df events_df : DataFrame) : Result DataFrame :=
  let frames_df := rename_column (lit "event_uuid") (lit "id") frames_df in
  pd_merge_left frames_df events_df [lit "match_id"; lit "id"].

(* ================================================================== *)
(** ** The metadata builder and the directory name *)
(* ================================================================== *)

Section Builder.
Context `{Builtins}.
Local Open Scope result_scope.

(** Lines 103-143: the dict literal [match_metadata].  Its value
    expressions are evaluated top to bottom; only the three [int(..)]
    calls on cells of the row can raise. *)
Definition match_metadata (match_id : Z) (match_row : Series)
  : Result (list (str * pyval)) :=
  let get := series_get match_row in
  home_score <- py_int (get (lit "home_score") (PInt 0));;
  away_score <- py_int (get (lit "away_score") (PInt 0));;
  match_week <- py_int (get (lit "match_week") (PInt 0));;
  Ok [ (lit "match_id", PInt match_id);
       (lit "match_date",
         PStr (py_str (get (lit "match_date") (PStr (lit "Unknown")))));
       (lit "kick_off",
         PStr (py_str (get (lit "kick_off") (PStr (lit "Unknown")))));
       (lit "competition_id", PInt 9);
       (lit "season_id", PInt 281);
       (lit "competition",
         PStr (py_str (get (lit "competition") (PStr (lit "1. Bundesliga")))));
       (lit "season",
         PStr (py_str (get (lit "season") (PStr (lit "2023/2024")))));
       (lit "home_team",
         PStr (py_str (get (lit "home_team") (PStr (lit "Unknown")))));
       (lit "away_team",
         PStr (py_str (get (lit "away_team") (PStr (lit "Unknown")))));
       (lit "home_score", PInt home_score);
       (lit "away_score", PInt away_score);
       (lit "match_status",
         PStr (py_str (get (lit "match_status") (PStr (lit "Unknown")))));
       (lit "match_status_360",
         PStr (py_str (get (lit "match_status_360") (PStr (lit "Unknown")))));
       (lit "last_updated",
         PStr (py_str (get (lit "last_updated") PNone)));
       (lit "last_updated_360",
         PStr (py_str (get (lit "last_updated_360") PNone)));
       (lit "match_week", PInt match_week);
       (lit "competition_stage",
         PStr (py_str (get (lit "competition_stage") (PStr (lit "Unknown")))));
       (lit "stadium",
         PStr (py_str (get (lit "stadium") (PStr (lit "Unknown")))));
       (lit "referee",
         PStr (py_str (get (lit "referee") (PStr (lit "Unknown")))));
       (lit "home_managers", get (lit "home_managers") (PList []));
       (lit "away_managers", get (lit "away_managers") (PList []));
       (lit "data_version",
         PStr (py_str (get (lit "data_version") (PStr (lit "Unknown")))));
       (lit "shot_fidelity_version",
         PStr (py_str (get (lit "shot_fidelity_version")
                         (PStr (lit "Unknown")))));
       (lit "xy_fidelity_version",
         PStr (py_str (get (lit "xy_fidelity_version")
                         (PStr (lit "Unknown"))))) ].

(** Lines 66-72: the name of the match directory, the f-string
    [GW{match_week}_{home_team}_{home_score}-{away_score}_{away_team}]. *)
Definition match_dir_name (match_row : Series) : Result str :=
  ht <- getitem match_row (lit "home_team");;
  home_team <- sanitize_team_name_dyn ht;;
  at_ <- getitem match_row (lit "away_team");;
  away_team <- sanitize_team_name_dyn at_;;
  let home_score := series_get match_row (lit "home_score") (PInt 0) in
  let away_score := series_get match_row (lit "away_score") (PInt 0) in
  let match_week := series_get match_row (lit "match_week") (PInt 0) in
  Ok (lit "GW" ++ py_str match_week ++ lit "_" ++ home_team ++ lit "_"
        ++ py_str home_score ++ lit "-" ++ py_str away_score ++ lit "_"
        ++ away_team).

End Builder.

(* ================================================================== *)
(** ** Provider, file system and the run *)
(* ================================================================== *)

(** The four operations of [statsbombpy.sb] the program calls.  Each
    returns a table or raises. *)
Record Provider := {
  sb_matches : Z -> Z -> Result DataFrame;
  sb_events : Z -> Result DataFrame;
  sb_frames : Z -> Result DataFrame;
  sb_lineups : Z -> Result (list (str * DataFrame))
}.

(** What a written file holds: the table given to [to_csv], the dict
    given to [json.dump], or the beginning of a text whose writer raised;
    the text of the file is not modelled. *)
Inductive Content :=
| Csv (df : DataFrame)
| Json (doc : list (str * pyval))
| Unfinished.

(** What [json.dump] can write: not a [numpy.int64], also not inside a
    list.  A [nan] is written as [NaN]. *)
Fixpoint json_value (v : pyval) : bool :=
  match v with
  | PInt64 _ => false
  | PList l => forallb json_value l
  | PInt _ | PStr _ | PNone | PNaN => true
  end.

Definition json_serialisable (doc : list (str * pyval)) : bool :=
  forallb (λ entry, json_value entry.2) doc.

(** What the run does to the outside, in the order it does it. *)
Inductive Event :=
| EMakedirs (path : str)
| EMatches (competition_id season_id : Z)
| EEvents (match_id : Z)
| EFrames (match_id : Z)
| ELineups (match_id : Z)
| EWrite (path : str).

Record World := {
  dirs : gset (list N);
  files : gmap (list N) Content;
  log : list Event
}.

Definition M (A : Type) : Type := World -> Result A * World.

Definition ret {A} (a : A) : M A := fun w => (Ok a, w).

Definition bind {A B} (m : M A) (k : A -> M B) : M B :=
  fun w =>
    match m w with
    | (Ok a, w') => k a w'
    | (Raise e, w') => (Raise e, w')
    end.

Definition lift {A} (r : Result A) : M A := fun w => (r, w).

Definition record (e : Event) (w : World) : World :=
  {| dirs := dirs w; files := files w; log := log w ++ [e] |}.

Declare Scope run_scope.
Delimit Scope run_scope with run.
Notation "x <- m ;; k" := (bind m (fun x => k))
  (at level 100, m at next level, right associativity) : run_scope.
Notation "m ;; k" := (bind m (fun _ => k))
  (at level 100, right associativity) : run_scope.

(** [os.path.join(a, b)] on POSIX: an absolute [b] replaces [a]; otherwise
    [b] is appended, after a ['/'] unless [a] is empty or ends in one. *)
Definition os_path_join (a b : str) : str :=
  if bool_decide (head b = Some 47%N) then b
  else if bool_decide (a = []) || bool_decide (last a = Some 47%N)
       then a ++ b
       else a ++ 47%N :: b.

Definition add_dir (path : str) (w : World) : World :=
  {| dirs := {[path]} ∪ dirs w; files := files w; log := log w |}.

Definition put_file (path : str) (c : Content) (w : World) : World :=
  {| dirs := dirs w; files := <[path := c]> (files w); log := log w |}.

(** [os.makedirs(path, exist_ok=True)]: the empty path is refused, an
    existing directory is accepted, an existing file of that name is not.
    Only the leaf is tracked: the directories above it, which
    [os.makedirs] makes when they are missing and which make it fail when
    one of them is a file, are not part of the world. *)
Definition makedirs (path : str) : M unit :=
  fun w =>
    let w := record (EMakedirs path) w in
    if bool_decide (path = []) then (Raise FileNotFoundError, w)
    else match files w !! path with
         | Some _ => (Raise FileExistsError, w)
         | None => (Ok tt, add_dir path w)
         end.

(** Opening [path] for writing and filling it: a file of that name is
    replaced, a directory of that name makes the call fail. *)
Definition write_file (path : str) (c : Content) : M unit :=
  fun w =>
    let w := record (EWrite path) w in
    if decide (path ∈ dirs w) then (Raise IsADirectoryError, w)
    else (Ok tt, put_file path c w).

Definition to_csv (df : DataFrame) (path : str) : M unit :=
  write_file path (Csv df).

(** Lines 145-146: the file is opened for writing, which empties it, and
    [json.dump] writes the document into it; it raises [TypeError] at the
    first value it cannot write and leaves what it wrote so far. *)
Definition json_dump (doc : list (str * pyval)) (path : str) : M unit :=
  if json_serialisable doc then write_file path (Json doc)
  else bind (write_file path Unfinished) (fun _ => lift (Raise TypeError)).

(** A provider call: the call is recorded, then its answer is returned. *)
Definition call {A} (e : Event) (answer : Result A) : M A :=
  fun w => (answer, record e w).

Section Run.
Context `{Builtins}.
Variable provider : Provider.
Local Open Scope run_scope.

(** Lines 7-18 *)
Definition create_data_directory (base_path : str) : M str :=
  makedirs base_path;;
  ret base_path.

(** The file a team's lineup goes to, line 86 *)
Definition lineup_path (match_dir team : str) : str :=
  let sanitized_team := sanitize_team_name team in
  os_path_join match_dir (sanitized_team ++ lit "_lineups.csv").

(** Lines 84-86: the loop over [lineups.items()] *)
Fixpoint save_lineups (match_dir : str) (lineups : list (str * DataFrame))
  : M unit :=
  match lineups with
  | [] => ret tt
  | (team, lineup_df) :: rest =>
      to_csv lineup_df (lineup_path match_dir team);;
      save_lineups match_dir rest
  end.

(** Lines 44-152.  The [except] clause prints and raises the exception
    again, so the outcome of the body is the outcome of the function. *)
Definition download_leverkusen_data (base_path : str) : M unit :=
  matches <- call (EMatches 9 281) (sb_matches provider 9 281);;
  match_row <- lift (iloc0 matches);;
  id_cell <- lift (getitem match_row (lit "match_id"));;
  match_id <- lift (py_int id_cell);;
  match_dir_name <- lift (match_dir_name match_row);;
  let match_dir := os_path_join base_path match_dir_name in
  makedirs match_dir;;
  events_df <- call (EEvents match_id) (sb_events provider match_id);;
  frames_df <- call (EFrames match_id) (sb_frames provider match_id);;
  lineups <- call (ELineups match_id) (sb_lineups provider match_id);;
  save_lineups match_dir lineups;;
  (if negb (df_empty frames_df)
   then merged_df <- lift (merge_frames frames_df events_df);;
        to_csv merged_df (os_path_join match_dir (lit "360_frames.csv"))
   else ret tt);;
  to_csv events_df (os_path_join match_dir (lit "events.csv"));;
  match_metadata <- lift (match_metadata match_id match_row);;
  json_dump match_metadata (os_path_join match_dir (lit "metadata.json")).

(** Lines 154-160; [create_data_directory()] takes its default
    ['matches']. *)
Definition main : M unit :=
  base_path <- create_data_directory (lit "matches");;
  download_leverkusen_data base_path.

End Run.

(* ================================================================== *)
(** ** The specification's side: the metadata table, the name format *)
(* ================================================================== *)

(** What the table of metadata fields says about a field the row lacks. *)
Inductive default_rule :=
| Required            (** no default: the run needs the field *)
| Fixed (v : pyval)   (** the value does not come from the row *)
| Default (v : pyval) (** used when the row lacks the field *).

(** The table of the metadata document: name, type, default-if-absent. *)
Definition metadata_table : list (str * pytype * default_rule) :=
  [ (lit "match_id", TInt, Required);
    (lit "match_date", TStr, Default (PStr (lit "Unknown")));
    (lit "kick_off", TStr, Default (PStr (lit "Unknown")));
    (lit "competition_id", TInt, Fixed (PInt 9));
    (lit "season_id", TInt, Fixed (PInt 281));
    (lit "competition", TStr, Default (PStr (lit "1. Bundesliga")));
    (lit "season", TStr, Default (PStr (lit "2023/2024")));
    (lit "home_team", TStr, Default (PStr (lit "Unknown")));
    (lit "away_team", TStr, Default (PStr (lit "Unknown")));
    (lit "home_score", TInt, Default (PInt 0));
    (lit "away_score", TInt, Default (PInt 0));
    (lit "match_status", TStr, Default (PStr (lit "Unknown")));
    (lit "match_status_360", TStr, Default (PStr (lit "Unknown")));
    (lit "last_updated", TStr, Default (PStr (lit "None")));
    (lit "last_updated_360", TStr, Default (PStr (lit "None")));
    (lit "match_week", TInt, Default (PInt 0));
    (lit "competition_stage", TStr, Default (PStr (lit "Unknown")));
    (lit "stadium", TStr, Default (PStr (lit "Unknown")));
    (lit "referee", TStr, Default (PStr (lit "Unknown")));
    (lit "home_managers", TList, Default (PList []));
    (lit "away_managers", TList, Default (PList []));
    (lit "data_version", TStr, Default (PStr (lit "Unknown")));
    (lit "shot_fidelity_version", TStr, Default (PStr (lit "Unknown")));
    (lit "xy_fidelity_version", TStr, Default (PStr (lit "Unknown"))) ].

Section SpecSide.
Context `{Builtins}.

(** Coercion of a present cell to the declared type of its field: [int],
    [str], or nothing at all for the list fields. *)
Definition coerce (ty : pytype) (v : pyval) : Result pyval :=
  match ty with
  | TInt => match py_int v with
            | Ok z => Ok (PInt z)
            | Raise e => Raise e
            end
  | TStr => Ok (PStr (py_str v))
  | _ => Ok v
  end.

(** One entry of the document against its line of the table. *)
Definition entry_ok (match_id : Z) (row : Series)
    (line : str * pytype * default_rule) (entry : str * pyval) : Prop :=
  let '(name, ty, rule) := line in
  entry.1 = name
  ∧ py_type entry.2 = ty
  ∧ match rule with
    | Required => entry.2 = PInt match_id
    | Fixed v => entry.2 = v
    | Default d =>
        match row !! name with
        | None => entry.2 = d
        | Some v => coerce ty v = Ok entry.2
        end
    end.

(** A match row whose present score and week cells are accepted by
    [int] and whose present manager cells are lists. *)
Definition row_typed (row : Series) : Prop :=
  (forall k v, k ∈ [lit "home_score"; lit "away_score"; lit "match_week"] ->
               row !! k = Some v -> exists z, py_int v = Ok z)
  ∧ (forall k v, k ∈ [lit "home_managers"; lit "away_managers"] ->
                 row !! k = Some v -> py_type v = TList).

(** The sentence of the specification about the builder, at one match
    row: the builder returns a document, the document has the fields of
    the table, each as its line says, and none is [None]. *)
Definition metadata_claim (match_id : Z) (row : Series) : Prop :=
  exists doc,
    match_metadata match_id row = Ok doc
    ∧ Forall2 (entry_ok match_id row) metadata_table doc
    ∧ Forall (λ entry, entry.2 ≠ PNone) doc.

#[global] Instance entry_ok_dec match_id row line entry :
  Decision (entry_ok match_id row line entry).
Proof.
  destruct line as [[name ty] [ | v | d]]; simpl; [apply _..|].
  destruct (row !! name); apply _.
Defined.

#[global] Instance metadata_claim_dec match_id row :
  Decision (metadata_claim match_id row).
Proof.
  unfold metadata_claim.
  destruct (match_metadata match_id row) as [doc|e].
  - destruct (decide (Forall2 (entry_ok match_id row) metadata_table doc
                      ∧ Forall (λ entry, entry.2 ≠ PNone) doc)) as [Hd|Hd].
    + left. now exists doc.
    + right. intros (doc' & [= <-] & Hdoc). now apply Hd.
  - right. now intros (doc & [=] & _).
Defined.

(** [GW{week}_{homeSanitized}_{homeScore}-{awayScore}_{awaySanitized}] *)
Definition dir_name_format (week home home_score away_score away : str)
  : str :=
  str_join (lit "_")
    [lit "GW" ++ week; home; home_score ++ lit "-" ++ away_score; away].

End SpecSide.

(** The frame-event join as the specification words it.  A frame row and
    an event row are linked when they agree on the match identifier and the
    frame's [event_uuid] is the event's [id]; two cells are the same
    identifier when the join takes them for equal. *)
Definition same_id (a b : pyval) : Prop := key_norm a = key_norm b.

Definition linked (frames events : DataFrame) (l e : list pyval) : Prop :=
  same_id (cell (columns frames) l (lit "match_id"))
    (cell (columns events) e (lit "match_id"))
  ∧ same_id (cell (columns frames) l (lit "event_uuid"))
      (cell (columns events) e (lit "id")).

#[global] Instance linked_dec frames events l e :
  Decision (linked frames events l e).
Proof. unfold linked, same_id. apply _. Defined.

(** The columns only the event table has: all but the two identifiers. *)
Definition event_only_columns (events : DataFrame) : list str :=
  other_columns [lit "match_id"; lit "id"] (columns events).

(** The cells of an event row under the event-only columns. *)
Definition event_part (events : DataFrame) (e : list pyval) : list pyval :=
  cell (columns events) e <$> event_only_columns events.

(** The rows of the merged table that come from the frame row [l]: one
    per linked event row, or [l] with every event-only cell empty. *)
Definition joined_rows (frames events : DataFrame) (l : list pyval)
  : list (list pyval) :=
  match filter (linked frames events l) (rows events) with
  | [] => [l ++ replicate (length (event_only_columns events)) PNaN]
  | es => (λ e, l ++ event_part events e) <$> es
  end.

(** Identifiers as the provider delivers them: a match identifier is an
    integer and an event identifier a string, in both tables. *)
Definition ids_typed (frames events : DataFrame) : Prop :=
  Forall (λ v, is_int_cell v = true) (column_cells frames (lit "match_id"))
  ∧ Forall (λ v, is_str_cell v = true)
      (column_cells frames (lit "event_uuid"))
  ∧ Forall (λ v, is_int_cell v = true) (column_cells events (lit "match_id"))
  ∧ Forall (λ v, is_str_cell v = true) (column_cells events (lit "id")).

(** No label that both tables have meets, with its suffix, a label that
    is there already. *)
Definition suffixes_free (frames events : DataFrame) : Prop :=
  forall c, c ∈ columns frames -> c ∈ columns events ->
            (c ++ lit "_x" ∉ columns frames)
            ∧ (c ++ lit "_y" ∉ columns events).

(** The merge changes the dtype of no column, so that every cell of the
    merged table is a cell of one of the two tables or NaN: the two
    [match_id] columns have the same dtype (pandas turns them into
    [object] columns otherwise), and the event table has no [int64]
    column outside the key (pandas turns it into a [float64] column when
    a frame row has no event). *)
Definition dtypes_kept (frames events : DataFrame) : Prop :=
  (rows events ≠ [] ->
   numeric_column (column_cells frames (lit "match_id"))
   = numeric_column (column_cells events (lit "match_id")))
  ∧ Forall (λ c, int64_column (column_cells events c) = false)
      (event_only_columns events).

(** Tables as the provider delivers them and as line 93 lets them
    through: the frame table is not empty, it has the columns [match_id]
    and [event_uuid] and no [id], the event table has [match_id] and
    [id]; in both tables no label is used twice and every row has one
    cell per column; the identifiers are integers and strings; no
    suffixed label meets another one; and the merge changes no dtype. *)
Definition merge_inputs_ok (frames events : DataFrame) : Prop :=
  wf_frame frames
  ∧ wf_frame events
  ∧ df_empty frames = false
  ∧ (lit "match_id" ∈ columns frames)
  ∧ (lit "event_uuid" ∈ columns frames)
  ∧ (lit "id" ∉ columns frames)
  ∧ (lit "match_id" ∈ columns events)
  ∧ (lit "id" ∈ columns events)
  ∧ ids_typed frames events
  ∧ suffixes_free frames events
  ∧ dtypes_kept frames events.

(** What a run may do to the world it starts in: directories are added,
    never removed, and the log is extended. *)
Definition grows (w w' : World) : Prop :=
  dirs w ⊆ dirs w' ∧ log w `prefix_of` log w'.

Definition monotone {A} (m : M A) : Prop :=
  forall w, grows w (m w).2.

(** What [os.path.join] puts between a directory and a relative name. *)
Definition path_sep (a : str) : str :=
  if bool_decide (a = []) || bool_decide (last a = Some 47%N)
  then [] else [47%N].

(** A path of one component: a name with no separator in it. *)
Definition path_component (p : str) : Prop :=
  p ≠ [] ∧ (47%N ∉ p) ∧ (0%N ∉ p).

(** No regular file has the name of [dir] or of a directory above it. *)
Definition no_file_above (dir : str) (w : World) : Prop :=
  forall p, p `prefix_of` dir -> files w !! p = None.

(** No directory of the world lies below [dir]. *)
Definition no_dir_below (dir : str) (w : World) : Prop :=
  forall p, p ∈ dirs w -> dir `prefix_of` p -> p = dir.

(** The world after the loop over the lineups has written its files. *)
Definition lineups_written `{Builtins} (match_dir : str)
    (lineups : list (str * DataFrame)) (w : World) : World :=
  foldl (λ w tl, put_file (lineup_path match_dir tl.1) (Csv tl.2)
                   (record (EWrite (lineup_path match_dir tl.1)) w))
    w lineups.

(* ================================================================== *)
(** ** The run in stages *)
(* ================================================================== *)

(** Lines 93-95 as a function of the two tables: the merged table when
    the frame table is not empty, nothing when it is. *)
Definition merge_step (frames_df events_df : DataFrame)
  : Result (option DataFrame) :=
  if negb (df_empty frames_df)
  then match merge_frames frames_df events_df with
       | Ok merged_df => Ok (Some merged_df)
       | Raise e => Raise e
       end
  else Ok None.

(** What a run has fetched when all its provider calls have succeeded: the
    match list, its first row, the identifier cell and its [int], the
    directory name, and the three tables of the match. *)
Record RunData := {
  rd_matches : DataFrame;
  rd_row : gmap (list N) pyval;
  rd_id_cell : pyval;
  rd_match_id : Z;
  rd_name : str;
  rd_events : DataFrame;
  rd_frames : DataFrame;
  rd_lineups : list (str * DataFrame)
}.

Definition rd_match_dir (base_path : str) (d : RunData) : str :=
  os_path_join base_path (rd_name d).

Section Stages.
Context `{Builtins}.
Variable provider : Provider.

(** The provider answers every call of the run and the first row of the
    match list gives an identifier and a directory name. *)
Definition fetch_ok (d : RunData) : Prop :=
  sb_matches provider 9 281 = Ok (rd_matches d)
  ∧ iloc0 (rd_matches d) = Ok (rd_row d)
  ∧ rd_row d !! lit "match_id" = Some (rd_id_cell d)
  ∧ py_int (rd_id_cell d) = Ok (rd_match_id d)
  ∧ match_dir_name (rd_row d) = Ok (rd_name d)
  ∧ sb_events provider (rd_match_id d) = Ok (rd_events d)
  ∧ sb_frames provider (rd_match_id d) = Ok (rd_frames d)
  ∧ sb_lineups provider (rd_match_id d) = Ok (rd_lineups d).

(** The world lets the run make its directory and write into it. *)
Definition fs_ok (base_path : str) (d : RunData) (w : World) : Prop :=
  files w !! rd_match_dir base_path d = None
  ∧ no_dir_below (rd_match_dir base_path d) w.

(** Lines 76-146: what [download_leverkusen_data] does once the match
    directory is made. *)
Definition fetch_and_persist (match_dir : str) (match_id : Z)
    (match_row : Series) : M unit :=
  (events_df <- call (EEvents match_id) (sb_events provider match_id);;
   frames_df <- call (EFrames match_id) (sb_frames provider match_id);;
   lineups <- call (ELineups match_id) (sb_lineups provider match_id);;
   save_lineups match_dir lineups;;
   (if negb (df_empty frames_df)
    then merged_df <- lift (merge_frames frames_df events_df);;
         to_csv merged_df (os_path_join match_dir (lit "360_frames.csv"))
    else ret tt);;
   to_csv events_df (os_path_join match_dir (lit "events.csv"));;
   match_metadata <- lift (match_metadata match_id match_row);;
   json_dump match_metadata
     (os_path_join match_dir (lit "metadata.json")))%run.

(** The files of the lineups, in the order of [lineups.items()]. *)
Definition lineup_writes (match_dir : str) (lineups : list (str * DataFrame))
  : list (str * Content) :=
  (λ tl, (lineup_path match_dir tl.1, Csv tl.2)) <$> lineups.

End Stages.

(** The world when the directory is made and the three tables are
    fetched. *)
Definition fetched (match_dir : str) (match_id : Z) (w : World) : World :=
  record (ELineups match_id)
    (record (EFrames match_id)
       (record (EEvents match_id)
          (add_dir match_dir
             (record (EMakedirs match_dir) (record (EMatches 9 281) w))))).

(** The world after a list of files has been written, first to last. *)
Definition write_all (ws : list (str * Content)) (w : World) : World :=
  foldl (λ w pc, put_file pc.1 pc.2 (record (EWrite pc.1) w)) w ws.

(** What the last write to [p] in a list of writes put there. *)
Definition last_write (ws : list (str * Content)) (p : str)
  : option Content :=
  snd <$> last (filter (λ pc, pc.1 = p) ws).

(** The file of the merged table, when there is one. *)
Definition frames_write (match_dir : str) (merged : option DataFrame)
  : list (str * Content) :=
  match merged with
  | Some merged_df =>
      [(os_path_join match_dir (lit "360_frames.csv"), Csv merged_df)]
  | None => []
  end.

Definition events_write (match_dir : str) (events_df : DataFrame)
  : list (str * Content) :=
  [(os_path_join match_dir (lit "events.csv"), Csv events_df)].

Definition metadata_write (match_dir : str) (doc : list (str * pyval))
  : list (str * Content) :=
  [(os_path_join match_dir (lit "metadata.json"), Json doc)].

(** What is left of [metadata.json] when [json.dump] raises: the file
    opened for writing, and no complete document in it. *)
Definition metadata_unfinished (match_dir : str) : list (str * Content) :=
  [(os_path_join match_dir (lit "metadata.json"), Unfinished)].

(* ================================================================== *)
(** ** Sample tables *)
(* ================================================================== *)

Module Sample.

(** A match list with one match; the row has no date, stadium, referee
    or away managers. *)
Definition matches : DataFrame :=
  {| columns := [lit "match_id"; lit "match_week"; lit "home_team";
                 lit "away_team"; lit "home_score"; lit "away_score";
                 lit "home_managers"];
     rows := [[PInt 123; PInt 5; PStr (lit "Bayer Leverkusen");
               PStr (lit "Bayern Munich"); PInt 3; PInt 0;
               PList [PStr (lit "Xabi Alonso")]]] |}.

Definition match_row : gmap (list N) pyval :=
  list_to_map (zip (columns matches)
                 [PInt 123; PInt 5; PStr (lit "Bayer Leverkusen");
                  PStr (lit "Bayern Munich"); PInt 3; PInt 0;
                  PList [PStr (lit "Xabi Alonso")]]).

Definition no_matches : DataFrame :=
  {| columns := columns matches; rows := [] |}.

(** Three frame rows: two for the event [a], one for [b]. *)
Definition frames : DataFrame :=
  {| columns := [lit "event_uuid"; lit "match_id"; lit "teammate"];
     rows := [[PStr (lit "a"); PInt 123; PInt 1];
              [PStr (lit "b"); PInt 123; PInt 0];
              [PStr (lit "a"); PInt 123; PInt 0]] |}.

(** The event [a] is there twice, the event [b] is not there. *)
Definition events : DataFrame :=
  {| columns := [lit "id"; lit "minute"; lit "match_id"];
     rows := [[PStr (lit "a"); PInt 7; PInt 123];
              [PStr (lit "a"); PInt 8; PInt 123];
              [PStr (lit "c"); PInt 9; PInt 123]] |}.

Definition no_frames : DataFrame := {| columns := []; rows := [] |}.

Definition lineup : DataFrame :=
  {| columns := [lit "player_name"]; rows := [[PStr (lit "Granit Xhaka")]] |}.

Definition lineups : list (str * DataFrame) :=
  [(lit "Bayer Leverkusen", lineup); (lit "Bayern Munich", lineup)].

(** A provider with an empty frame table. *)
Definition provider : Provider :=
  {| sb_matches := λ _ _, Ok matches;
     sb_events := λ _, Ok events;
     sb_frames := λ _, Ok no_frames;
     sb_lineups := λ _, Ok lineups |}.

(** A provider with an empty match list. *)
Definition idle_provider : Provider :=
  {| sb_matches := λ _ _, Ok no_matches;
     sb_events := λ _, Raise ProviderError;
     sb_frames := λ _, Raise ProviderError;
     sb_lineups := λ _, Raise ProviderError |}.

Definition empty_world : World := {| dirs := ∅; files := ∅; log := [] |}.

End Sample.

(* ================================================================== *)
(** ** Sample runs *)
(* ================================================================== *)

Module SampleRun.

(** A provider whose frame table has rows. *)
Definition provider : Provider :=
  {| sb_matches := λ _ _, Ok Sample.matches;
     sb_events := λ _, Ok Sample.events;
     sb_frames := λ _, Ok Sample.frames;
     sb_lineups := λ _, Ok Sample.lineups |}.

Definition data : RunData :=
  {| rd_matches := Sample.matches;
     rd_row := Sample.match_row;
     rd_id_cell := PInt 123;
     rd_match_id := 123;
     rd_name := lit "GW5_BayerLeverkusen_3-0_BayernMunich";
     rd_events := Sample.events;
     rd_frames := Sample.frames;
     rd_lineups := Sample.lineups |}.

(** A frame table without the [match_id] column. *)
Definition loose_frames : DataFrame :=
  {| columns := [lit "event_uuid"; lit "teammate"];
     rows := [[PStr (lit "a"); PInt 1]] |}.

Definition loose_provider : Provider :=
  {| sb_matches := λ _ _, Ok Sample.matches;
     sb_events := λ _, Ok Sample.events;
     sb_frames := λ _, Ok loose_frames;
     sb_lineups := λ _, Ok Sample.lineups |}.

Definition loose_data : RunData :=
  {| rd_matches := Sample.matches;
     rd_row := Sample.match_row;
     rd_id_cell := PInt 123;
     rd_match_id := 123;
     rd_name := lit "GW5_BayerLeverkusen_3-0_BayernMunich";
     rd_events := Sample.events;
     rd_frames := loose_frames;
     rd_lineups := Sample.lineups |}.

(** A frame table whose link column is already called [id]. *)
Definition id_frames : DataFrame :=
  {| columns := [lit "id"; lit "match_id"; lit "teammate"];
     rows := rows Sample.frames |}.

(** A frame table with both link columns. *)
Definition double_frames : DataFrame :=
  {| columns := [lit "event_uuid"; lit "id"; lit "match_id"];
     rows := [[PStr (lit "a"); PStr (lit "a"); PInt 123]] |}.

(** Tables that share the label [location]. *)
Definition located_frames : DataFrame :=
  {| columns := [lit "event_uuid"; lit "match_id"; lit "location"];
     rows := [[PStr (lit "a"); PInt 123; PInt 10]] |}.

Definition located_events : DataFrame :=
  {| columns := [lit "id"; lit "location"; lit "match_id"];
     rows := [[PStr (lit "a"); PInt 60; PInt 123]] |}.

(** An event table in which no event is there twice. *)
Definition plain_events : DataFrame :=
  {| columns := [lit "id"; lit "minute"; lit "match_id"];
     rows := [[PStr (lit "a"); PInt 7; PInt 123];
              [PStr (lit "c"); PInt 9; PInt 123]] |}.

(** A match whose home score has no value. *)
Definition open_matches : DataFrame :=
  {| columns := [lit "match_id"; lit "match_week"; lit "home_team";
                 lit "away_team"; lit "home_score"; lit "away_score"];
     rows := [[PInt 123; PInt 5; PStr (lit "Bayer Leverkusen");
               PStr (lit "Bayern Munich"); PNaN; PInt 0]] |}.

Definition open_row : gmap (list N) pyval :=
  list_to_map (zip (columns open_matches)
                 [PInt 123; PInt 5; PStr (lit "Bayer Leverkusen");
                  PStr (lit "Bayern Munich"); PNaN; PInt 0]).

Definition open_provider : Provider :=
  {| sb_matches := λ _ _, Ok open_matches;
     sb_events := λ _, Ok Sample.events;
     sb_frames := λ _, Ok Sample.no_frames;
     sb_lineups := λ _, Ok Sample.lineups |}.

Definition open_data : RunData :=
  {| rd_matches := open_matches;
     rd_row := open_row;
     rd_id_cell := PInt 123;
     rd_match_id := 123;
     rd_name := lit "GW5_BayerLeverkusen_nan-0_BayernMunich";
     rd_events := Sample.events;
     rd_frames := Sample.no_frames;
     rd_lineups := Sample.lineups |}.

(** The sample match with no value in the cell of the home managers. *)
Definition null_managers_row : gmap (list N) pyval :=
  <[lit "home_managers" := PNone]> Sample.match_row.

(** A match list as [sb.matches] gives it, with numpy integers, and with
    a numpy integer also where the home managers are. *)
Definition numpy_matches : DataFrame :=
  {| columns := columns Sample.matches;
     rows := [[PInt64 123; PInt64 5; PStr (lit "Bayer Leverkusen");
               PStr (lit "Bayern Munich"); PInt64 3; PInt64 0;
               PInt64 7]] |}.

Definition numpy_provider : Provider :=
  {| sb_matches := λ _ _, Ok numpy_matches;
     sb_events := λ _, Ok Sample.events;
     sb_frames := λ _, Ok Sample.no_frames;
     sb_lineups := λ _, Ok Sample.lineups |}.

Definition numpy_data : RunData :=
  {| rd_matches := numpy_matches;
     rd_row := list_to_map (zip (columns numpy_matches)
                              [PInt64 123; PInt64 5;
                               PStr (lit "Bayer Leverkusen");
                               PStr (lit "Bayern Munich"); PInt64 3;
                               PInt64 0; PInt64 7]);
     rd_id_cell := PInt64 123;
     rd_match_id := 123;
     rd_name := lit "GW5_BayerLeverkusen_3-0_BayernMunich";
     rd_events := Sample.events;
     rd_frames := Sample.no_frames;
     rd_lineups := Sample.lineups |}.

(** An event table without the [match_id] column. *)
Definition keyless_events : DataFrame :=
  {| columns := [lit "id"; lit "minute"];
     rows := [[PStr (lit "a"); PInt 7]] |}.

(** An event table whose identifiers are numpy integers. *)
Definition numpy_events : DataFrame :=
  {| columns := [lit "id"; lit "minute"; lit "match_id"];
     rows := [[PInt64 1; PInt64 7; PInt64 123];
              [PInt64 2; PInt64 9; PInt64 123]] |}.

(** The sample frame table with numpy integers for the match. *)
Definition numpy_frames : DataFrame :=
  {| columns := [lit "event_uuid"; lit "match_id"; lit "teammate"];
     rows := [[PStr (lit "a"); PInt64 123; PInt 1];
              [PNone; PInt64 123; PInt 0]] |}.

(** An event table with an event that has no identifier. *)
Definition anonymous_events : DataFrame :=
  {| columns := [lit "id"; lit "minute"; lit "match_id"];
     rows := [[PStr (lit "a"); PInt 7; PInt64 123];
              [PNaN; PInt 8; PInt64 123]] |}.

(** A frame table that has the label [location_x] next to [location]. *)
Definition suffixed_frames : DataFrame :=
  {| columns := [lit "event_uuid"; lit "match_id"; lit "location";
                 lit "location_x"];
     rows := [[PStr (lit "a"); PInt 123; PInt 10; PInt 11]] |}.

(** A frame table whose link cells are lists. *)
Definition listed_frames : DataFrame :=
  {| columns := [lit "event_uuid"; lit "match_id"];
     rows := [[PList [PStr (lit "a")]; PInt 123]] |}.

(** A match list whose first row has no [home_team]. *)
Definition teamless_matches : DataFrame :=
  {| columns := [lit "match_id"; lit "away_team"];
     rows := [[PInt 123; PStr (lit "Bayern Munich")]] |}.

Definition teamless_provider : Provider :=
  {| sb_matches := λ _ _, Ok teamless_matches;
     sb_events := λ _, Ok Sample.events;
     sb_frames := λ _, Ok Sample.no_frames;
     sb_lineups := λ _, Ok Sample.lineups |}.

(** A provider that has the match list and fails on the events. *)
Definition eventless_provider : Provider :=
  {| sb_matches := λ _ _, Ok Sample.matches;
     sb_events := λ _, Raise ProviderError;
     sb_frames := λ _, Ok Sample.no_frames;
     sb_lineups := λ _, Ok Sample.lineups |}.

(** A match list with a second match. *)
Definition two_matches : DataFrame :=
  {| columns := columns Sample.matches;
     rows := rows Sample.matches
             ++ [[PInt 124; PInt 5; PStr (lit "VfB Stuttgart");
                  PStr (lit "SC Freiburg"); PInt 5; PInt 0; PList []]] |}.

Definition two_matches_provider : Provider :=
  {| sb_matches := λ _ _, Ok two_matches;
     sb_events := sb_events provider;
     sb_frames := sb_frames provider;
     sb_lineups := sb_lineups provider |}.

(** Lineups of two teams whose names differ in a space only. *)
Definition twin_lineups : list (str * DataFrame) :=
  [(lit "Team A", Sample.lineup); (lit "TeamA", Sample.no_frames)].

Definition twin_provider : Provider :=
  {| sb_matches := λ _ _, Ok Sample.matches;
     sb_events := λ _, Ok Sample.events;
     sb_frames := λ _, Ok Sample.no_frames;
     sb_lineups := λ _, Ok twin_lineups |}.

Definition twin_data : RunData :=
  {| rd_matches := Sample.matches;
     rd_row := Sample.match_row;
     rd_id_cell := PInt 123;
     rd_match_id := 123;
     rd_name := lit "GW5_BayerLeverkusen_3-0_BayernMunich";
     rd_events := Sample.events;
     rd_frames := Sample.no_frames;
     rd_lineups := twin_lineups |}.

(** A world in which [matches] is a regular file. *)
Definition blocked_world : World :=
  {| dirs := ∅; files := {[ lit "matches" := Csv Sample.no_frames ]};
     log := [] |}.

End SampleRun.

(* ================================================================== *)
(** ** Two facts about [filter] *)
(* ================================================================== *)

Section FilterFacts.
Context {A : Type} (P : A -> Prop) `{!forall x, Decision (P x)}.

Lemma filter_fixed (l : list A) : Forall P l -> filter P l = l.
Proof.
  induction 1 as [|x l Hx _ IH]; [done|].
  rewrite filter_cons_True by done. now rewrite IH.
Qed.

Lemma filter_none (l : list A) :
  (forall x, x ∈ l -> ~ P x) -> filter P l = [].
Proof.
  induction l as [|a l IH]; intros Hl; [done|].
  rewrite filter_cons_False by (apply Hl; left).
  apply IH. intros x Hx. apply Hl. now right.
Qed.
End FilterFacts.

(* ================================================================== *)
(** ** Properties of the sanitizers *)
(* ================================================================== *)

Section SanitizerFacts.
Context `{Builtins}.

(** The loop of [rstrip] as CPython runs it, from the right end. *)
Lemma rstrip_snoc (s : str) (c : char) :
  rstrip (s ++ [c]) = if isspace c then rstrip s else s ++ [c].
Proof.
  induction s as [|a s IH]; simpl.
  - now destruct (isspace c).
  - rewrite IH. destruct (isspace c) eqn:Ec.
    + reflexivity.
    + now destruct s.
Qed.

Lemma rstrip_prefix (s : str) : rstrip s `prefix_of` s.
Proof.
  induction s as [|a s IH]; simpl.
  - done.
  - destruct (rstrip s) as [|b r] eqn:E.
    + destruct (isspace a).
      * apply prefix_nil.
      * apply prefix_cons, prefix_nil.
    + now apply prefix_cons.
Qed.

Lemma rstrip_last (s : str) (c : char) :
  last (rstrip s) = Some c -> isspace c = false.
Proof.
  induction s as [|a s IH] using rev_ind; simpl.
  - discriminate.
  - rewrite rstrip_snoc. destruct (isspace a) eqn:Ea.
    + exact IH.
    + rewrite last_snoc. now intros [= <-].
Qed.

Lemma rstrip_fixed (s : str) :
  (forall c, last s = Some c -> isspace c = false) -> rstrip s = s.
Proof.
  destruct s as [|a s _] using rev_ind; [done|].
  intros Hl. rewrite rstrip_snoc, (Hl a); [done|]. apply last_snoc.
Qed.

Lemma rstrip_idem (s : str) : rstrip (rstrip s) = rstrip s.
Proof. apply rstrip_fixed, rstrip_last. Qed.

Lemma Forall_prefix (P : char -> Prop) (s t : str) :
  s `prefix_of` t -> Forall P t -> Forall P s.
Proof. intros [k ->]. now rewrite Forall_app. Qed.

Lemma sanitize_filename_allowed (s : str) :
  Forall (λ c, isalnum c || is_separator c = true) (sanitize_filename s).
Proof.
  unfold sanitize_filename.
  eapply Forall_prefix; [apply rstrip_prefix|].
  apply Forall_forall. intros c Hc.
  now apply list_elem_of_filter in Hc as [Hc _].
Qed.

Lemma sanitize_team_name_alnum (s : str) :
  Forall (λ c, isalnum c = true) (sanitize_team_name s).
Proof.
  apply Forall_forall. intros c Hc.
  now apply list_elem_of_filter in Hc as [Hc _].
Qed.

End SanitizerFacts.

(* ================================================================== *)
(** ** The identifier sanitizers (claims C5, C7, C9) *)
(* ================================================================== *)

Section SanitizerClaims.
Context `{Builtins}.

Lemma is_separator_spec (c : char) :
  is_separator c = true <-> c ∈ [32%N; 95%N; 45%N].
Proof. unfold is_separator. apply bool_decide_eq_true. Qed.

(** C5.  For every string, the output of [sanitize_filename] holds only
    alphanumeric characters, spaces, underscores and hyphens and does not
    end in a whitespace character; the output of [sanitize_team_name]
    holds only alphanumeric characters.  Both are functions defined on
    every string, and they return the empty string on the empty string
    and on a string none of whose characters is kept. *)
Theorem sanitizers_output_alphabet (s : str) :
  Forall (λ c, isalnum c = true ∨ c ∈ [32%N; 95%N; 45%N])
    (sanitize_filename s)
  ∧ (forall c, last (sanitize_filename s) = Some c -> isspace c = false)
  ∧ Forall (λ c, isalnum c = true) (sanitize_team_name s)
  ∧ sanitize_filename [] = []
  ∧ sanitize_team_name [] = []
  ∧ ((forall c, c ∈ s -> isalnum c = false ∧ c ∉ [32%N; 95%N; 45%N]) ->
     sanitize_filename s = [])
  ∧ ((forall c, c ∈ s -> isalnum c = false) -> sanitize_team_name s = []).
Proof.
  repeat split.
  - eapply Forall_impl; [apply sanitize_filename_allowed|].
    intros c Hc. apply orb_true_iff in Hc as [Hc|Hc]; [now left|right].
    now apply is_separator_spec.
  - intros c. apply rstrip_last.
  - apply sanitize_team_name_alnum.
  - intros Hs. unfold sanitize_filename. rewrite filter_none; [done|].
    intros c Hc Hk. destruct (Hs c Hc) as [Ha Hsep].
    apply orb_true_iff in Hk as [Hk|Hk]; [congruence|].
    now apply is_separator_spec in Hk.
  - intros Hs. unfold sanitize_team_name. apply filter_none.
    intros c Hc Hk. specialize (Hs c Hc). congruence.
Qed.

(** C7.  Applying either sanitizer to its own output changes nothing. *)
Theorem sanitizers_idempotent (s : str) :
  sanitize_filename (sanitize_filename s) = sanitize_filename s
  ∧ sanitize_team_name (sanitize_team_name s) = sanitize_team_name s.
Proof.
  split.
  - unfold sanitize_filename at 1.
    rewrite filter_fixed by apply sanitize_filename_allowed.
    apply rstrip_idem.
  - apply filter_fixed, sanitize_team_name_alnum.
Qed.

(** C9.  The output of each sanitizer is a subsequence of its input:
    characters are deleted, none is added, replaced or moved. *)
Theorem sanitizers_subsequence (s : str) :
  sanitize_filename s `sublist_of` s
  ∧ sanitize_team_name s `sublist_of` s.
Proof.
  split.
  - unfold sanitize_filename.
    destruct (rstrip_prefix
                (filter (λ c, isalnum c || is_separator c = true) s))
      as [k Hk].
    transitivity (filter (λ c, isalnum c || is_separator c = true) s).
    + rewrite Hk at 2. now apply sublist_inserts_r.
    + apply sublist_filter.
  - apply sublist_filter.
Qed.

End SanitizerClaims.

(* ================================================================== *)
(** ** The name of the match directory (claim C6) *)
(* ================================================================== *)

Section DirectoryName.
Context `{Builtins}.

Lemma sanitize_team_name_ascii (s : str) :
  Forall (λ c, (c < 128)%N) s ->
  sanitize_team_name s = filter (λ c, ascii_isalnum c = true) s.
Proof.
  unfold sanitize_team_name.
  induction 1 as [|c s Hc _ IH]; [done|].
  rewrite !filter_cons, IH, (isalnum_ascii c Hc).
  now destruct (ascii_isalnum c).
Qed.

(** C6.  For a row whose team cells are strings, the directory name is
    [GW{week}_{home}_{homeScore}-{awayScore}_{away}] where the two team
    names went through [sanitize_team_name] and the week and the scores
    are the cells as [str] prints them ([0] when the row lacks them);
    for week 5, "Bayer Leverkusen" 3, "Bayern Munich" 0 the name is
    [GW5_BayerLeverkusen_3-0_BayernMunich]. *)
Theorem match_dir_name_format (row : gmap (list N) pyval) (h a : str) :
  row !! lit "home_team" = Some (PStr h) ->
  row !! lit "away_team" = Some (PStr a) ->
  match_dir_name row
  = Ok (dir_name_format
          (py_str (series_get row (lit "match_week") (PInt 0)))
          (sanitize_team_name h)
          (py_str (series_get row (lit "home_score") (PInt 0)))
          (py_str (series_get row (lit "away_score") (PInt 0)))
          (sanitize_team_name a))
  ∧ (row !! lit "match_week" = Some (PInt 5) ->
     h = lit "Bayer Leverkusen" ->
     row !! lit "home_score" = Some (PInt 3) ->
     a = lit "Bayern Munich" ->
     row !! lit "away_score" = Some (PInt 0) ->
     match_dir_name row = Ok (lit "GW5_BayerLeverkusen_3-0_BayernMunich")).
Proof.
  intros Hh Ha. unfold match_dir_name, getitem, series_get.
  rewrite Hh, Ha. simpl rbind. split.
  - unfold dir_name_format, str_join. f_equal.
    now rewrite <- !app_assoc.
  - intros -> -> -> -> ->.
    rewrite !sanitize_team_name_ascii
      by (apply Forall_forall; intros c Hc; vm_compute in Hc;
          apply list_elem_of_In in Hc; simpl in Hc;
          repeat destruct Hc as [<-|Hc]; done).
    reflexivity.
Qed.

End DirectoryName.

(* ================================================================== *)
(** ** The metadata builder (claim C1) *)
(* ================================================================== *)

Section MetadataBuilder.
Context `{Builtins}.

Lemma int_cell_coerced (row : gmap (list N) pyval) (k : str) :
  (forall v, row !! k = Some v -> exists z, py_int v = Ok z) ->
  exists z, py_int (series_get row k (PInt 0)) = Ok z
            ∧ match row !! k with
              | None => PInt z = PInt 0
              | Some v => coerce TInt v = Ok (PInt z)
              end.
Proof.
  intros Hk. unfold series_get. destruct (row !! k) as [v|]; simpl.
  - destruct (Hk v eq_refl) as [z Hz]. exists z. now rewrite Hz.
  - now exists 0.
Qed.

Lemma list_cell_passed (row : gmap (list N) pyval) (k : str) :
  (forall v, row !! k = Some v -> py_type v = TList) ->
  py_type (series_get row k (PList [])) = TList
  ∧ match row !! k with
    | None => series_get row k (PList []) = PList []
    | Some v => coerce TList v = Ok (series_get row k (PList []))
    end.
Proof.
  intros Hk. unfold series_get. destruct (row !! k) as [v|]; simpl; auto.
Qed.

Lemma str_cell_coerced (row : gmap (list N) pyval) (k : str) (d : pyval) :
  match row !! k with
  | None => PStr (py_str (series_get row k d)) = PStr (py_str d)
  | Some v => coerce TStr v = Ok (PStr (py_str (series_get row k d)))
  end.
Proof. unfold series_get. now destruct (row !! k). Qed.

(** C1, as amended.  For a match row that lacks any set of its fields,
    and in which every score or week cell that is there is accepted by
    [int] and every manager cell that is there is a list, the builder
    returns a document with exactly the 24 fields of the table, in its
    order and each once; every entry has the declared type, is the
    coerced cell when the row has the field and the documented default
    when it has not, and none is [None].  Without the condition on the
    cells that are there the sentence is false: a manager cell goes into
    the document as it is, and [int] raises on a score without a
    value. *)
Theorem match_metadata_complete (match_id : Z) (row : gmap (list N) pyval) :
  row_typed row ->
  exists doc,
    match_metadata match_id row = Ok doc
    ∧ length doc = 24%nat
    ∧ doc.*1 = metadata_table.*1.*1
    ∧ NoDup doc.*1
    ∧ Forall2 (entry_ok match_id row) metadata_table doc
    ∧ Forall (λ entry, entry.2 ≠ PNone) doc.
Proof.
  intros [Hint Hlist].
  destruct (int_cell_coerced row (lit "home_score")) as (hs & Ehs & Hhs).
  { intros v. apply Hint. set_solver. }
  destruct (int_cell_coerced row (lit "away_score")) as (aw & Eaw & Haw).
  { intros v. apply Hint. set_solver. }
  destruct (int_cell_coerced row (lit "match_week")) as (wk & Ewk & Hwk).
  { intros v. apply Hint. set_solver. }
  destruct (list_cell_passed row (lit "home_managers")) as [Thm Hhm].
  { intros v. apply Hlist. set_solver. }
  destruct (list_cell_passed row (lit "away_managers")) as [Tam Ham].
  { intros v. apply Hlist. set_solver. }
  unfold match_metadata. rewrite Ehs, Eaw, Ewk. simpl rbind.
  eexists. split; [reflexivity|].
  split; [reflexivity|]. split; [reflexivity|]. split.
  { change (NoDup metadata_table.*1.*1).
    apply (bool_decide_unpack _). vm_compute. exact I. }
  split.
  - unfold metadata_table.
    repeat (apply List.Forall2_cons; [|]); try apply List.Forall2_nil;
      (split; [reflexivity|]); simpl snd;
      try (split; [reflexivity|]); try apply str_cell_coerced;
      try reflexivity.
    + destruct (row !! lit "home_score"); [exact Hhs|congruence].
    + destruct (row !! lit "away_score"); [exact Haw|congruence].
    + destruct (row !! lit "match_week"); [exact Hwk|congruence].
    + split; [exact Thm|]. destruct (row !! lit "home_managers"); exact Hhm.
    + split; [exact Tam|]. destruct (row !! lit "away_managers"); exact Ham.
  - repeat (apply List.Forall_cons; [|]); try apply List.Forall_nil;
      simpl snd; try discriminate.
    + intros E. rewrite E in Thm. discriminate.
    + intros E. rewrite E in Tam. discriminate.
Qed.

End MetadataBuilder.

(* ================================================================== *)
(** ** The frame-event merger (claims C2, C8) *)
(* ================================================================== *)

Section Merger.

Lemma filter_eq_absent (k : str) (cols : list str) :
  k ∉ cols -> filter (λ c, c = k) cols = [].
Proof.
  induction cols as [|c cols IH]; intros Hk; [done|].
  apply not_elem_of_cons in Hk as [Hne Hk].
  rewrite filter_cons_False by congruence. auto.
Qed.

Lemma filter_eq_once (k : str) (cols : list str) :
  NoDup cols -> k ∈ cols -> length (filter (λ c, c = k) cols) = 1%nat.
Proof.
  induction 1 as [|c cols Hc _ IH]; intros Hk; [by apply elem_of_nil in Hk|].
  destruct (decide (c = k)) as [->|Hne].
  - rewrite filter_cons_True by done. now rewrite filter_eq_absent.
  - rewrite filter_cons_False by done.
    apply elem_of_cons in Hk as [Hk|Hk]; [congruence|auto].
Qed.

Lemma key_check_once (k : str) (cols : list str) :
  NoDup cols -> k ∈ cols -> key_check cols k = Ok tt.
Proof. intros Hn Hk. unfold key_check. now rewrite filter_eq_once. Qed.

Section Rename.
Variables old new : str.
#[local] Abbreviation ren := (rename_label old new).

Lemma ren_old : ren old = new.
Proof. unfold rename_label. now rewrite decide_True. Qed.

Lemma ren_other (c : str) : c ≠ old -> ren c = c.
Proof. intros Hc. unfold rename_label. now rewrite decide_False. Qed.

Lemma rename_NoDup (cols : list str) :
  NoDup cols -> new ∉ cols -> NoDup (ren <$> cols).
Proof.
  intros Hn Hnew. apply NoDup_fmap_2_strong; [|done].
  intros x y Hx Hy. unfold ren.
  repeat case_decide; intros E; subst; congruence.
Qed.

Lemma rename_elem_new (cols : list str) :
  old ∈ cols -> new ∈ ren <$> cols.
Proof.
  intros Ho. apply list_elem_of_fmap. exists old. split; [|done].
  now rewrite ren_old.
Qed.

Lemma rename_elem_other (k : str) (cols : list str) :
  k ≠ old -> k ∈ cols -> k ∈ ren <$> cols.
Proof.
  intros Hne Hk. apply list_elem_of_fmap. exists k. split; [|done].
  now rewrite ren_other.
Qed.

Lemma rename_cell_new (cols : list str) (r : list pyval) :
  new ∉ cols -> cell (ren <$> cols) r new = cell cols r old.
Proof.
  revert r. induction cols as [|c cols IH]; intros r Hnew; [done|].
  apply not_elem_of_cons in Hnew as [Hne Hnew].
  destruct r as [|v r]; [done|]. rewrite fmap_cons. simpl.
  destruct (decide (c = old)) as [->|Hco].
  - now rewrite ren_old, decide_True.
  - rewrite ren_other by done. rewrite decide_False by congruence. auto.
Qed.

Lemma rename_cell_other (k : str) (cols : list str) (r : list pyval) :
  k ≠ old -> k ≠ new -> cell (ren <$> cols) r k = cell cols r k.
Proof.
  intros Hko Hkn. revert r.
  induction cols as [|c cols IH]; intros r; [done|].
  destruct r as [|v r]; [done|]. rewrite fmap_cons. simpl.
  destruct (decide (c = old)) as [->|Hco].
  - rewrite ren_old, !decide_False by congruence. auto.
  - rewrite ren_other by done. destruct (decide (c = k)); auto.
Qed.
End Rename.

Lemma suffix_dups_NoDup (seen_new seen_old new old : list str) :
  NoDup new -> (forall n, n ∈ new -> n ∉ seen_new) ->
  suffix_dups seen_new seen_old new old = [].
Proof.
  intros Hn. revert seen_new seen_old old.
  induction Hn as [|n new Hn _ IH]; intros seen_new seen_old old Hseen;
    [done|].
  destruct old as [|o old]; [done|]. simpl.
  rewrite decide_False by (intros [Hin _]; now apply (Hseen n); [left|]).
  apply IH. intros n' Hn' [->|Hin]%elem_of_cons; [done|].
  apply (Hseen n'); [now right|done].
Qed.

Lemma existsb_none {A} (f : A -> bool) (l : list A) :
  Forall (λ v, f v = false) l -> existsb f l = false.
Proof. induction 1 as [|v l Hv _ IH]; [done|]. simpl. now rewrite Hv. Qed.

Lemma dtype_clash_ints (lk rk : list pyval) :
  Forall (λ v, is_int_cell v = true) lk ->
  Forall (λ v, is_int_cell v = true) rk ->
  dtype_clash lk rk = false.
Proof.
  intros Hl Hr. destruct Hl as [|a lk Ha _]; [done|].
  destruct Hr as [|b rk Hb _]; [done|].
  unfold dtype_clash. simpl existsb. rewrite Ha, Hb. simpl.
  now rewrite !andb_false_r.
Qed.

Lemma numeric_column_strs (a : pyval) (l : list pyval) :
  is_str_cell a = true -> numeric_column (a :: l) = false.
Proof. now destruct a. Qed.

Lemma dtype_clash_strs (lk rk : list pyval) :
  Forall (λ v, is_str_cell v = true) lk ->
  Forall (λ v, is_str_cell v = true) rk ->
  dtype_clash lk rk = false.
Proof.
  intros Hl Hr. destruct Hl as [|a lk Ha _]; [done|].
  destruct Hr as [|b rk Hb _]; [done|].
  unfold dtype_clash. now rewrite !numeric_column_strs.
Qed.

Lemma hashable_key (lk rk : list pyval) :
  Forall (λ v, is_list_cell v = false) lk ->
  Forall (λ v, is_list_cell v = false) rk ->
  unhashable_key lk rk = false.
Proof.
  intros Hl Hr. unfold unhashable_key. rewrite !existsb_none by done.
  now destruct lk, rk.
Qed.

Lemma int_cells_hashable (cells : list pyval) :
  Forall (λ v, is_int_cell v = true) cells ->
  Forall (λ v, is_list_cell v = false) cells.
Proof. intros Hc. eapply Forall_impl; [exact Hc|]. now intros []. Qed.

Lemma str_cells_hashable (cells : list pyval) :
  Forall (λ v, is_str_cell v = true) cells ->
  Forall (λ v, is_list_cell v = false) cells.
Proof. intros Hc. eapply Forall_impl; [exact Hc|]. now intros []. Qed.

Lemma suffix_x_not_id (c : str) : c ++ lit "_x" ≠ lit "id".
Proof. destruct c as [|a [|b [|d c]]]; discriminate. Qed.

Variables frames events : DataFrame.
Hypothesis inputs_ok : merge_inputs_ok frames events.

#[local] Abbreviation renamed :=
  (rename_column (lit "event_uuid") (lit "id") frames).
#[local] Abbreviation on := [lit "match_id"; lit "id"].

Lemma linked_key (l e : list pyval) :
  key_of (columns events) on e = key_of (columns renamed) on l
  <-> linked frames events l e.
Proof.
  destruct inputs_ok as (_ & _ & _ & _ & _ & Hid & _).
  unfold key_of, linked, same_id, rename_column. simpl.
  rewrite rename_cell_new by done. rewrite rename_cell_other by done.
  split; [intros [= E1 E2]|intros [E1 E2]]; [split|]; congruence.
Qed.

Lemma left_join_row_joined (l : list pyval) :
  left_join_row (columns renamed) (columns events) on (rows events) l
  = joined_rows frames events l.
Proof.
  unfold left_join_row, joined_rows.
  now rewrite (list_filter_iff _ (linked frames events l))
    by (intros e; apply linked_key).
Qed.

Lemma renamed_match_ids :
  column_cells renamed (lit "match_id") = column_cells frames (lit "match_id").
Proof.
  unfold column_cells, rename_column. simpl.
  apply list_fmap_ext. intros i r _. now rewrite rename_cell_other.
Qed.

Lemma renamed_event_ids :
  column_cells renamed (lit "id") = column_cells frames (lit "event_uuid").
Proof.
  destruct inputs_ok as (_ & _ & _ & _ & _ & Hid & _).
  unfold column_cells, rename_column. simpl.
  apply list_fmap_ext. intros i r _. now rewrite rename_cell_new.
Qed.

Lemma renamed_shared (c : str) :
  c ∈ columns renamed -> c ∉ on -> c ∈ columns frames.
Proof.
  unfold rename_column. simpl.
  intros (c0 & -> & Hc0)%list_elem_of_fmap Hon. unfold rename_label in *.
  case_decide; [|done]. exfalso. apply Hon. repeat constructor.
Qed.

Lemma renamed_label (c : str) :
  c ∈ columns renamed -> c = lit "id" ∨ c ∈ columns frames.
Proof.
  unfold rename_column. simpl.
  intros (c0 & -> & Hc0)%list_elem_of_fmap. unfold rename_label.
  case_decide; auto.
Qed.

Lemma left_label_free (c : str) :
  c ∈ columns renamed -> c ∉ on -> c ∈ columns events ->
  c ++ lit "_x" ∉ columns renamed.
Proof.
  destruct inputs_ok as (_ & _ & _ & _ & _ & _ & _ & _ & _ & Hsuf & _).
  intros Hc Hon Hce [Hin|Hin]%renamed_label.
  - now apply suffix_x_not_id in Hin.
  - destruct (Hsuf c (renamed_shared c Hc Hon) Hce) as [Hx _]. done.
Qed.

Lemma left_labels_NoDup :
  NoDup ((λ c, if decide ((c ∉ on) ∧ (c ∈ columns events))
               then c ++ lit "_x" else c) <$> columns renamed).
Proof.
  destruct inputs_ok as ((Hnf & _) & _ & _ & _ & _ & Hid & _).
  apply NoDup_fmap_2_strong; [|now apply rename_NoDup].
  intros x y Hx Hy.
  repeat case_decide; intros E; subst;
    try (now apply app_inv_tail in E); try done; exfalso;
    match goal with
    | Hs : (?c ∉ on) ∧ (?c ∈ columns events) |- _ =>
        destruct Hs as [Hon Hce]; now apply (left_label_free c)
    end.
Qed.

Lemma right_labels_NoDup :
  NoDup ((λ c, if decide (c ∈ columns renamed) then c ++ lit "_y" else c)
           <$> event_only_columns events).
Proof.
  destruct inputs_ok as (_ & (Hne & _) & _ & _ & _ & _ & _ & _ & _ & Hsuf & _).
  unfold event_only_columns, other_columns.
  apply NoDup_fmap_2_strong; [|now apply NoDup_filter].
  intros x y [Hxon Hx]%list_elem_of_filter [Hyon Hy]%list_elem_of_filter.
  repeat case_decide; intros E; subst;
    try (now apply app_inv_tail in E); try done; exfalso;
    match goal with
    | Hs : ?c ∈ columns renamed, Hin : ?c ++ lit "_y" ∈ columns events,
      Hon : ?c ∉ on, Hce : ?c ∈ columns events |- _ =>
        destruct (Hsuf c (renamed_shared c Hs Hon) Hce) as [_ Hy']; done
    end.
Qed.

(** The merge of line 95 on tables as the provider delivers them: no
    check of pandas stops it, and the merged table has the labels of the
    two tables, suffixed where they meet, and the joined rows. *)
Lemma merge_frames_outcome :
  merge_frames frames events
  = Ok {| columns :=
            ((λ c, if decide ((c ∉ on) ∧ (c ∈ columns events))
                   then c ++ lit "_x" else c) <$> columns renamed)
            ++ ((λ c, if decide (c ∈ columns renamed)
                      then c ++ lit "_y" else c)
                  <$> event_only_columns events);
          rows := rows frames ≫= joined_rows frames events |}.
Proof.
  pose proof left_labels_NoDup as Hll.
  pose proof right_labels_NoDup as Hrl.
  pose proof renamed_match_ids as Hrm.
  pose proof renamed_event_ids as Hre.
  destruct inputs_ok
    as ((Hnf & _) & (Hne & _) & _ & Hfm & Hfu & Hfi & Hem & Hei
        & (Tfm & Tfu & Tem & Tei) & _).
  assert (Hkeys : keys_check (columns renamed) (columns events) on = Ok tt).
  { simpl keys_check. rewrite !key_check_once; try done.
    - now apply rename_NoDup.
    - now apply rename_elem_new.
    - now apply rename_NoDup.
    - now apply rename_elem_other. }
  assert (Hdt : existsb (λ k, dtype_clash (column_cells renamed k)
                                (column_cells events k)) on = false).
  { simpl existsb. rewrite Hrm, Hre.
    now rewrite dtype_clash_ints, dtype_clash_strs. }
  assert (Hhash : existsb (λ k, unhashable_key (column_cells renamed k)
                                  (column_cells events k)) on = false).
  { simpl existsb. rewrite Hrm, Hre.
    rewrite !hashable_key; [done|..];
      (now apply str_cells_hashable) || (now apply int_cells_hashable). }
  unfold merge_frames, pd_merge_left. cbv zeta.
  rewrite Hkeys, Hdt, Hhash.
  fold (event_only_columns events).
  rewrite !suffix_dups_NoDup;
    [|done|intros n _ Hn; by apply elem_of_nil in Hn
     |done|intros n _ Hn; by apply elem_of_nil in Hn].
  simpl. do 2 f_equal. apply list_bind_ext; [|done].
  apply left_join_row_joined.
Qed.

Lemma merge_frames_rows :
  exists cols,
    merge_frames frames events
    = Ok {| columns := cols;
            rows := rows frames ≫= joined_rows frames events |}
    ∧ length cols
      = (length (columns frames) + length (event_only_columns events))%nat
    ∧ (forall i, columns frames !! i = Some (lit "event_uuid") ->
                 cols !! i = Some (lit "id")).
Proof.
  eexists. split; [apply merge_frames_outcome|]. split.
  - rewrite length_app, !length_fmap. unfold rename_column. simpl.
    now rewrite length_fmap.
  - intros i Hi. unfold rename_column. simpl.
    rewrite lookup_app_l
      by (rewrite !length_fmap; now apply lookup_lt_Some in Hi).
    rewrite !list_lookup_fmap, Hi. simpl. now rewrite ren_old.
Qed.

Lemma joined_rows_shape (l o : list pyval) :
  o ∈ joined_rows frames events l ->
  (o = l ++ replicate (length (event_only_columns events)) PNaN
   ∧ forall e, e ∈ rows events -> ~ linked frames events l e)
  ∨ (exists e, e ∈ rows events ∧ linked frames events l e
               ∧ o = l ++ event_part events e).
Proof.
  unfold joined_rows.
  destruct (filter (linked frames events l) (rows events)) as [|e0 es] eqn:E.
  - intros ->%list_elem_of_singleton. left. split; [done|].
    intros e He Hl. eapply (filter_nil_not_elem_of _ _ e); eauto.
  - rewrite <- E. intros (e & -> & He)%list_elem_of_fmap.
    apply list_elem_of_filter in He as [Hl He]. right. eauto.
Qed.

Lemma joined_rows_linked (l e : list pyval) :
  e ∈ rows events -> linked frames events l e ->
  l ++ event_part events e ∈ joined_rows frames events l.
Proof.
  intros He Hle. unfold joined_rows.
  assert (Hin : e ∈ filter (linked frames events l) (rows events))
    by now apply list_elem_of_filter.
  destruct (filter (linked frames events l) (rows events)) as [|e0 es] eqn:E;
    [by apply elem_of_nil in Hin|].
  apply list_elem_of_fmap. eauto.
Qed.

Lemma joined_rows_length (l : list pyval) :
  length (joined_rows frames events l)
  = Nat.max 1 (length (filter (linked frames events l) (rows events))).
Proof.
  unfold joined_rows.
  destruct (filter (linked frames events l) (rows events)); [done|].
  now rewrite length_fmap.
Qed.

Lemma joined_rows_take (l o : list pyval) :
  length l = length (columns frames) ->
  o ∈ joined_rows frames events l ->
  take (length (columns frames)) o = l.
Proof.
  intros Hl Ho. apply joined_rows_shape in Ho as [[-> _]|(e & _ & _ & ->)];
    now apply take_app_length'.
Qed.

Lemma joined_rows_count (l : list pyval) (frame_rows : list (list pyval)) :
  Forall (λ r, length r = length (columns frames)) frame_rows ->
  length (filter (λ o, take (length (columns frames)) o = l)
            (frame_rows ≫= joined_rows frames events))
  = (length (filter (λ r, r = l) frame_rows)
     * Nat.max 1 (length (filter (linked frames events l) (rows events))))%nat.
Proof.
  induction 1 as [|r frame_rows Hr _ IH]; [done|].
  rewrite bind_cons, filter_app, length_app, IH.
  destruct (decide (r = l)) as [->|Hne].
  - rewrite (filter_cons_True (λ r, r = l)) by done.
    rewrite filter_fixed, joined_rows_length; [simpl; lia|].
    apply Forall_forall. intros o. now apply joined_rows_take.
  - rewrite (filter_cons_False (λ r, r = l)) by done.
    rewrite filter_none; [done|].
    intros o Ho Ht. apply joined_rows_take in Ho; congruence.
Qed.

End Merger.



(* ================================================================== *)
(** ** The run: what it adds to the world *)
(* ================================================================== *)

Section Monotone.

Lemma grows_refl (w : World) : grows w w.
Proof. split; done. Qed.

Lemma grows_trans (w1 w2 w3 : World) :
  grows w1 w2 -> grows w2 w3 -> grows w1 w3.
Proof. intros [? ?] [? ?]. split; etrans; eauto. Qed.

Lemma grows_record (e : Event) (w : World) : grows w (record e w).
Proof. split; simpl; [done|]. now apply prefix_app_r. Qed.

Lemma monotone_ret {A} (a : A) : monotone (ret a).
Proof. intros w. apply grows_refl. Qed.

Lemma monotone_lift {A} (r : Result A) : monotone (lift r).
Proof. intros w. apply grows_refl. Qed.

Lemma monotone_call {A} (e : Event) (r : Result A) : monotone (call e r).
Proof. intros w. apply grows_record. Qed.

Lemma monotone_makedirs (path : str) : monotone (makedirs path).
Proof.
  intros w. unfold makedirs. simpl.
  case_bool_decide; [apply grows_record|].
  destruct (files w !! path); simpl.
  - apply grows_record.
  - split; simpl; [set_solver|]. now apply prefix_app_r.
Qed.

Lemma monotone_write_file (path : str) (c : Content) :
  monotone (write_file path c).
Proof.
  intros w. unfold write_file. simpl.
  destruct (decide (path ∈ dirs w)); simpl.
  - apply grows_record.
  - split; simpl; [done|]. now apply prefix_app_r.
Qed.

Lemma monotone_bind {A B} (m : M A) (k : A -> M B) :
  monotone m -> (forall a, monotone (k a)) -> monotone (bind m k).
Proof.
  intros Hm Hk w. unfold bind. specialize (Hm w).
  destruct (m w) as [[a|e] w1]; simpl in *; [|done].
  eapply grows_trans; [exact Hm|apply Hk].
Qed.

Lemma grows_bind_call {A B} (e : Event) (r : Result A) (k : A -> M B)
    (w : World) :
  (forall a, monotone (k a)) -> grows (record e w) (bind (call e r) k w).2.
Proof.
  intros Hk. unfold bind, call. destruct r as [a|x]; simpl.
  - apply Hk.
  - apply grows_refl.
Qed.

End Monotone.

Ltac monotone_step :=
  first
    [ apply monotone_ret | apply monotone_lift | apply monotone_call
    | apply monotone_makedirs | apply monotone_write_file
    | apply monotone_bind; [|intros ?] ].

Section RunFacts.
Context `{Builtins}.
Variable provider : Provider.

Lemma monotone_save_lineups (match_dir : str)
    (lineups : list (str * DataFrame)) :
  monotone (save_lineups match_dir lineups).
Proof.
  induction lineups as [|[team df] rest IH]; simpl.
  - apply monotone_ret.
  - unfold to_csv. repeat monotone_step. exact IH.
Qed.

Lemma monotone_after_matches (base_path : str) (matches : DataFrame) :
  monotone
    (match_row <- lift (iloc0 matches);;
     id_cell <- lift (getitem match_row (lit "match_id"));;
     match_id <- lift (py_int id_cell);;
     match_dir_name <- lift (match_dir_name match_row);;
     let match_dir := os_path_join base_path match_dir_name in
     makedirs match_dir;;
     events_df <- call (EEvents match_id) (sb_events provider match_id);;
     frames_df <- call (EFrames match_id) (sb_frames provider match_id);;
     lineups <- call (ELineups match_id) (sb_lineups provider match_id);;
     save_lineups match_dir lineups;;
     (if negb (df_empty frames_df)
      then merged_df <- lift (merge_frames frames_df events_df);;
           to_csv merged_df (os_path_join match_dir (lit "360_frames.csv"))
      else ret tt);;
     to_csv events_df (os_path_join match_dir (lit "events.csv"));;
     match_metadata <- lift (match_metadata match_id match_row);;
     json_dump match_metadata
       (os_path_join match_dir (lit "metadata.json")))%run.
Proof.
  unfold to_csv, json_dump.
  repeat first
    [ monotone_step
    | apply monotone_save_lineups
    | progress cbv zeta
    | match goal with
      | |- monotone (if ?b then _ else _) => destruct b
      end ].
Qed.

Lemma bind_ok {A B} (m : M A) (k : A -> M B) (w w' : World) (a : A) :
  m w = (Ok a, w') -> bind m k w = k a w'.
Proof. intros E. unfold bind. now rewrite E. Qed.

Lemma bind_raise {A B} (m : M A) (k : A -> M B) (w w' : World) (e : exn) :
  m w = (Raise e, w') -> bind m k w = (Raise e, w').
Proof. intros E. unfold bind. now rewrite E. Qed.

Lemma makedirs_ok (path : str) (w : World) :
  path ≠ [] ->
  files w !! path = None ->
  makedirs path w = (Ok tt, add_dir path (record (EMakedirs path) w)).
Proof.
  intros Hne E. unfold makedirs. simpl.
  rewrite bool_decide_eq_false_2 by done. now rewrite E.
Qed.

Lemma match_dir_name_starts (row : gmap (list N) pyval) (name : str) :
  match_dir_name row = Ok name -> exists rest, name = lit "GW" ++ rest.
Proof.
  unfold match_dir_name, getitem. intros Hname.
  destruct (row !! lit "home_team") as [hv|]; [|discriminate].
  simpl in Hname.
  destruct (sanitize_team_name_dyn hv) as [h|]; [|discriminate].
  simpl in Hname.
  destruct (row !! lit "away_team") as [av|]; [|discriminate].
  simpl in Hname.
  destruct (sanitize_team_name_dyn av) as [a|]; [|discriminate].
  simpl in Hname. injection Hname as <-. eauto.
Qed.

Lemma os_path_join_nonempty (a b : str) : b ≠ [] -> os_path_join a b ≠ [].
Proof.
  intros Hb. unfold os_path_join. case_bool_decide; [done|].
  destruct (bool_decide (a = []) || bool_decide (last a = Some 47%N));
    intros [_ ?]%app_eq_nil; done.
Qed.

Lemma match_dir_nonempty (row : gmap (list N) pyval) (base_path name : str) :
  match_dir_name row = Ok name -> os_path_join base_path name ≠ [].
Proof.
  intros [rest ->]%match_dir_name_starts. now apply os_path_join_nonempty.
Qed.

Lemma write_file_ok (path : str) (c : Content) (w : World) :
  path ∉ dirs w ->
  write_file path c w = (Ok tt, put_file path c (record (EWrite path) w)).
Proof. intros E. unfold write_file. simpl. now rewrite decide_False. Qed.

Lemma download_empty_matches (base_path : str) (w : World)
    (matches : DataFrame) :
  sb_matches provider 9 281 = Ok matches ->
  rows matches = [] ->
  download_leverkusen_data provider base_path w
  = (Raise IndexError, record (EMatches 9 281) w).
Proof.
  intros Hm Hrows. unfold download_leverkusen_data.
  rewrite (bind_ok _ _ w (record (EMatches 9 281) w) matches)
    by (unfold call; now rewrite Hm).
  apply bind_raise. unfold lift, iloc0. now rewrite Hrows.
Qed.

(** C3.  With an empty match list the selection [matches.iloc[0]] raises
    [IndexError] (the failure the specification calls EmptyResultError)
    and the run ends there: the only provider call made is the one for
    the match list, and no directory or file is made. *)
Theorem empty_match_list_aborts (base_path : str) (w : World)
    (matches : DataFrame) :
  sb_matches provider 9 281 = Ok matches ->
  rows matches = [] ->
  exists w',
    download_leverkusen_data provider base_path w = (Raise IndexError, w')
    ∧ log w' = log w ++ [EMatches 9 281]
    ∧ dirs w' = dirs w
    ∧ files w' = files w.
Proof.
  intros Hm Hrows. exists (record (EMatches 9 281) w). split.
  - now apply (download_empty_matches base_path w matches).
  - repeat split.
Qed.

(** C10.  [main] makes the base directory ['matches'] before anything
    else: the first thing a run does is that [makedirs], the second the
    call for the match list.  Whatever the outcome of the run, the base
    directory is there afterwards; when the provider fails on the match
    list or the list is empty, the base directory is all the run has
    made. *)
Theorem base_directory_first (w : World) :
  files w !! lit "matches" = None ->
  (exists rest,
     log (main provider w).2
     = log w ++ EMakedirs (lit "matches") :: EMatches 9 281 :: rest)
  ∧ lit "matches" ∈ dirs (main provider w).2
  ∧ ((forall e, sb_matches provider 9 281 = Raise e ->
                (main provider w).1 = Raise e)
     ∧ (forall matches, sb_matches provider 9 281 = Ok matches ->
                        rows matches = [] ->
                        (main provider w).1 = Raise IndexError))
  ∧ ((exists e, sb_matches provider 9 281 = Raise e)
     ∨ (exists matches, sb_matches provider 9 281 = Ok matches
                        ∧ rows matches = []) ->
     dirs (main provider w).2 = {[lit "matches"]} ∪ dirs w
     ∧ files (main provider w).2 = files w
     ∧ log (main provider w).2
       = log w ++ [EMakedirs (lit "matches"); EMatches 9 281]).
Proof.
  intros Hfree.
  set (w1 := add_dir (lit "matches") (record (EMakedirs (lit "matches")) w)).
  assert (Hmain : main provider w
                  = download_leverkusen_data provider (lit "matches") w1).
  { unfold main, create_data_directory.
    erewrite bind_ok; [reflexivity|].
    erewrite bind_ok; [reflexivity|]. now apply makedirs_ok. }
  rewrite Hmain.
  assert (Hgrow :
    grows (record (EMatches 9 281) w1)
      (download_leverkusen_data provider (lit "matches") w1).2).
  { apply grows_bind_call. intros matches.
    apply monotone_after_matches. }
  destruct Hgrow as [Hdirs [rest Hlog]].
  split; [|split; [|split]].
  - exists rest. rewrite Hlog. simpl. now rewrite <- !app_assoc.
  - apply Hdirs. simpl. set_solver.
  - split.
    + intros e He. unfold download_leverkusen_data, bind, call.
      now rewrite He.
    + intros matches Hm Hrows.
      now rewrite (download_empty_matches (lit "matches") w1 matches).
  - intros [[e He]|(matches & Hm & Hrows)].
    + unfold download_leverkusen_data, bind, call. rewrite He. simpl.
      now rewrite <- app_assoc.
    + rewrite (download_empty_matches (lit "matches") w1 matches) by done.
      simpl. now rewrite <- app_assoc.
Qed.

End RunFacts.

(* ================================================================== *)
(** ** Paths below the match directory *)
(* ================================================================== *)

Section Paths.
Context `{Builtins}.

Lemma os_path_join_relative (a b : str) :
  head b ≠ Some 47%N -> os_path_join a b = a ++ path_sep a ++ b.
Proof.
  intros Hb. unfold os_path_join, path_sep.
  rewrite bool_decide_eq_false_2 by done.
  now destruct (bool_decide (a = []) || bool_decide (last a = Some 47%N)).
Qed.

Lemma os_path_join_inj (a b c : str) :
  head b ≠ Some 47%N -> head c ≠ Some 47%N ->
  os_path_join a b = os_path_join a c -> b = c.
Proof.
  intros Hb Hc. rewrite !os_path_join_relative by done.
  now intros ?%app_inv_head%app_inv_head.
Qed.

Lemma os_path_join_not_dir (dir name : str) (w : World) :
  no_dir_below dir w -> name ≠ [] -> head name ≠ Some 47%N ->
  os_path_join dir name ∉ {[dir]} ∪ dirs w.
Proof.
  intros Hw Hne Hrel. rewrite os_path_join_relative by done.
  assert (Hlonger : dir ++ path_sep dir ++ name ≠ dir).
  { intros E. apply (f_equal length) in E. rewrite !length_app in E.
    destruct name; [done|]. simpl in E. lia. }
  intros [?%elem_of_singleton|Hin]%elem_of_union; [done|].
  apply Hlonger, Hw; [done|]. now apply prefix_app_r.
Qed.

Lemma lineup_name_relative (team : str) :
  head (sanitize_team_name team ++ lit "_lineups.csv") ≠ Some 47%N.
Proof.
  pose proof (sanitize_team_name_alnum team) as Hal.
  destruct (sanitize_team_name team) as [|c st]; [done|].
  simpl. intros [= ->]. apply Forall_cons in Hal as [Hc _].
  rewrite isalnum_ascii in Hc by done. discriminate.
Qed.

Lemma lineup_name_nonempty (team : str) :
  sanitize_team_name team ++ lit "_lineups.csv" ≠ [].
Proof. now intros [_ ?]%app_eq_nil. Qed.

(** A lineup file is none of the three files with fixed names. *)
Lemma lineup_name_other (team : str) (name : string) :
  name ∈ ["360_frames.csv"; "events.csv"; "metadata.json"]%string ->
  sanitize_team_name team ++ lit "_lineups.csv" ≠ lit name.
Proof.
  intros Hn E. apply (f_equal reverse) in E. rewrite reverse_app in E.
  apply (f_equal (take 9)) in E.
  rewrite take_app_le in E by (vm_compute; lia).
  repeat (apply elem_of_cons in Hn as [->|Hn]; [vm_compute in E; done|]).
  by apply elem_of_nil in Hn.
Qed.

Lemma lineup_path_other (match_dir team : str) (name : string) :
  name ∈ ["360_frames.csv"; "events.csv"; "metadata.json"]%string ->
  lineup_path match_dir team ≠ os_path_join match_dir (lit name).
Proof.
  intros Hn E. apply os_path_join_inj in E.
  - now apply (lineup_name_other team name).
  - apply lineup_name_relative.
  - repeat (apply elem_of_cons in Hn as [->|Hn]; [done|]).
    by apply elem_of_nil in Hn.
Qed.

Lemma fixed_paths_distinct (match_dir : str) (a b : string) :
  a ∈ ["360_frames.csv"; "events.csv"; "metadata.json"]%string ->
  b ∈ ["360_frames.csv"; "events.csv"; "metadata.json"]%string ->
  a ≠ b ->
  os_path_join match_dir (lit a) ≠ os_path_join match_dir (lit b).
Proof.
  intros Ha Hb Hab E.
  repeat (apply elem_of_cons in Ha as [->|Ha]);
    try (by apply elem_of_nil in Ha);
    repeat (apply elem_of_cons in Hb as [->|Hb]);
    try (by apply elem_of_nil in Hb);
    try done;
    apply os_path_join_inj in E; done.
Qed.

Lemma lineup_path_inj (match_dir t1 t2 : str) :
  lineup_path match_dir t1 = lineup_path match_dir t2
  <-> sanitize_team_name t1 = sanitize_team_name t2.
Proof.
  unfold lineup_path. split.
  - intros E%os_path_join_inj; try apply lineup_name_relative.
    now apply app_inv_tail in E.
  - now intros ->.
Qed.

End Paths.

(* ================================================================== *)
(** ** A run with an empty frame table (claim C4) *)
(* ================================================================== *)

Section EmptyFrames.
Context `{Builtins}.
Variable provider : Provider.

Lemma lineups_written_dirs (match_dir : str)
    (lineups : list (str * DataFrame)) (w : World) :
  dirs (lineups_written match_dir lineups w) = dirs w.
Proof.
  revert w. induction lineups as [|tl rest IH]; intros w; [done|].
  unfold lineups_written in *. simpl. now rewrite IH.
Qed.

Lemma lineups_written_log (match_dir : str)
    (lineups : list (str * DataFrame)) (w : World) :
  log (lineups_written match_dir lineups w)
  = log w ++ ((λ tl, EWrite (lineup_path match_dir tl.1)) <$> lineups).
Proof.
  revert w. induction lineups as [|tl rest IH]; intros w.
  - simpl. now rewrite app_nil_r.
  - unfold lineups_written in *. simpl. rewrite IH. simpl.
    now rewrite <- app_assoc.
Qed.

Lemma lineups_written_other (match_dir : str)
    (lineups : list (str * DataFrame)) (w : World) (p : str) :
  (forall tl, tl ∈ lineups -> lineup_path match_dir tl.1 ≠ p) ->
  files (lineups_written match_dir lineups w) !! p = files w !! p.
Proof.
  revert w. induction lineups as [|tl rest IH]; intros w Hp; [done|].
  unfold lineups_written in *. simpl. rewrite IH.
  - simpl. apply lookup_insert_ne, Hp. left.
  - intros tl' Htl. apply Hp. now right.
Qed.

Lemma lineups_written_kept (match_dir : str)
    (lineups : list (str * DataFrame)) (w : World) (p : str) :
  (exists df, files w !! p = Some (Csv df)) ->
  exists df, files (lineups_written match_dir lineups w) !! p
             = Some (Csv df).
Proof.
  revert w. induction lineups as [|tl rest IH]; intros w Hp; [done|].
  unfold lineups_written in *. simpl. apply IH. simpl.
  destruct (decide (lineup_path match_dir tl.1 = p)) as [->|Hne].
  - rewrite lookup_insert_eq. eauto.
  - now rewrite lookup_insert_ne.
Qed.

Lemma lineups_written_each (match_dir : str)
    (lineups : list (str * DataFrame)) (w : World) (team : str)
    (df : DataFrame) :
  (team, df) ∈ lineups ->
  exists df', files (lineups_written match_dir lineups w)
                !! lineup_path match_dir team = Some (Csv df').
Proof.
  revert w. induction lineups as [|tl rest IH]; intros w Hin;
    [by apply elem_of_nil in Hin|].
  apply elem_of_cons in Hin as [<-|Hin].
  - unfold lineups_written. simpl. apply lineups_written_kept.
    simpl. rewrite lookup_insert_eq. eauto.
  - unfold lineups_written in *. simpl. now apply IH.
Qed.

Lemma lineups_written_last (match_dir : str)
    (before after : list (str * DataFrame)) (w : World) (team : str)
    (df : DataFrame) :
  Forall (λ tl, sanitize_team_name tl.1 ≠ sanitize_team_name team) after ->
  files (lineups_written match_dir (before ++ (team, df) :: after) w)
    !! lineup_path match_dir team = Some (Csv df).
Proof.
  intros Hafter. unfold lineups_written. rewrite foldl_app. simpl.
  fold (lineups_written match_dir before w).
  set (w1 := lineups_written match_dir before w).
  fold (lineups_written match_dir after
          (put_file (lineup_path match_dir team) (Csv df)
             (record (EWrite (lineup_path match_dir team)) w1))).
  rewrite lineups_written_other.
  - simpl. apply lookup_insert_eq.
  - intros tl Htl E. apply lineup_path_inj in E.
    rewrite Forall_forall in Hafter. now apply (Hafter tl).
Qed.

Lemma save_lineups_ok (match_dir : str)
    (lineups : list (str * DataFrame)) (w : World) :
  (forall tl, tl ∈ lineups -> lineup_path match_dir tl.1 ∉ dirs w) ->
  save_lineups match_dir lineups w
  = (Ok tt, lineups_written match_dir lineups w).
Proof.
  revert w. induction lineups as [|[team df] rest IH]; intros w Hfree;
    [done|].
  simpl save_lineups. unfold to_csv.
  erewrite bind_ok; [|apply write_file_ok, (Hfree (team, df)); left].
  rewrite IH; [done|].
  intros tl Htl. simpl. apply Hfree. now right.
Qed.

(** C4.  In a run whose provider calls succeed, whose frame table is
    empty and whose metadata document [json.dump] can write, in a world
    where no file is in the way of the match directory and no directory
    lies below it, the merge is skipped: the run ends without an
    exception, it writes no [360_frames.csv] (the path is not written to
    and holds what it held before), and the match directory holds, for
    every team of the lineups, the file of its table (the table of the
    last team with that sanitized name), [events.csv] with the event
    table and [metadata.json] with the document. *)
Theorem empty_frames_skip_merge (base_path : str) (w : World)
    (matches : DataFrame) (row : gmap (list N) pyval) (id_cell : pyval)
    (match_id : Z) (name : str) (events_df frames_df : DataFrame)
    (lineups : list (str * DataFrame)) (doc : list (str * pyval)) :
  let match_dir := os_path_join base_path name in
  sb_matches provider 9 281 = Ok matches ->
  iloc0 matches = Ok row ->
  row !! lit "match_id" = Some id_cell ->
  py_int id_cell = Ok match_id ->
  match_dir_name row = Ok name ->
  match_metadata match_id row = Ok doc ->
  sb_events provider match_id = Ok events_df ->
  sb_frames provider match_id = Ok frames_df ->
  sb_lineups provider match_id = Ok lineups ->
  df_empty frames_df = true ->
  json_serialisable doc = true ->
  no_file_above match_dir w ->
  no_dir_below match_dir w ->
  exists w' written,
    download_leverkusen_data provider base_path w = (Ok tt, w')
    ∧ log w' = log w ++ written
    ∧ (EWrite (os_path_join match_dir (lit "360_frames.csv")) ∉ written)
    ∧ files w' !! os_path_join match_dir (lit "360_frames.csv")
      = files w !! os_path_join match_dir (lit "360_frames.csv")
    ∧ match_dir ∈ dirs w'
    ∧ (forall before team df after,
         lineups = before ++ (team, df) :: after ->
         Forall (λ tl, sanitize_team_name tl.1 ≠ sanitize_team_name team)
           after ->
         files w' !! lineup_path match_dir team = Some (Csv df))
    ∧ files w' !! os_path_join match_dir (lit "events.csv")
      = Some (Csv events_df)
    ∧ files w' !! os_path_join match_dir (lit "metadata.json")
      = Some (Json doc).
Proof.
  intros match_dir Hm Hrow Hid Hint Hname Hdoc Hev Hfr Hlu Hempty Hjson
    Habove Hbelow.
  assert (Hfree : files w !! match_dir = None) by now apply Habove.
  set (w1 := record (EMatches 9 281) w).
  set (w2 := add_dir match_dir (record (EMakedirs match_dir) w1)).
  set (w3 := record (ELineups match_id)
               (record (EFrames match_id) (record (EEvents match_id) w2))).
  set (w4 := lineups_written match_dir lineups w3).
  set (events_path := os_path_join match_dir (lit "events.csv")).
  set (metadata_path := os_path_join match_dir (lit "metadata.json")).
  set (w5 := put_file events_path (Csv events_df)
               (record (EWrite events_path) w4)).
  set (w6 := put_file metadata_path (Json doc)
               (record (EWrite metadata_path) w5)).
  assert (Hdirs3 : dirs w3 = {[match_dir]} ∪ dirs w) by reflexivity.
  assert (Hfixed : forall name' : string,
            name' ∈ ["360_frames.csv"; "events.csv"; "metadata.json"]%string ->
            os_path_join match_dir (lit name') ∉ {[match_dir]} ∪ dirs w).
  { intros name' Hn. apply os_path_join_not_dir; [done| |];
      repeat (apply elem_of_cons in Hn as [->|Hn]; [done|]);
      by apply elem_of_nil in Hn. }
  assert (Hrun : download_leverkusen_data provider base_path w = (Ok tt, w6)).
  { unfold download_leverkusen_data.
    erewrite bind_ok; [|unfold call; now rewrite Hm].
    erewrite bind_ok; [|unfold lift; now rewrite Hrow].
    erewrite bind_ok; [|unfold lift, getitem; now rewrite Hid].
    erewrite bind_ok; [|unfold lift; now rewrite Hint].
    erewrite bind_ok; [|unfold lift; now rewrite Hname].
    cbv zeta. fold match_dir.
    erewrite bind_ok;
      [|apply makedirs_ok; [now apply (match_dir_nonempty row)|done]].
    erewrite bind_ok; [|unfold call; now rewrite Hev].
    erewrite bind_ok; [|unfold call; now rewrite Hfr].
    erewrite bind_ok; [|unfold call; now rewrite Hlu].
    erewrite bind_ok; cycle 1.
    { apply save_lineups_ok. intros [team df] _. fold w1 w2 w3.
      rewrite Hdirs3. apply os_path_join_not_dir; [done| |].
      - apply lineup_name_nonempty.
      - apply lineup_name_relative. }
    rewrite Hempty. simpl negb. cbv iota.
    erewrite bind_ok; [|reflexivity].
    unfold to_csv, json_dump.
    erewrite bind_ok; cycle 1.
    { apply write_file_ok. fold w1 w2 w3 w4. unfold w4.
      rewrite lineups_written_dirs, Hdirs3. apply Hfixed. set_solver. }
    erewrite bind_ok; [|unfold lift; now rewrite Hdoc].
    rewrite Hjson.
    apply write_file_ok. fold w1 w2 w3 w4 events_path w5.
    change (dirs w5) with (dirs w4). unfold w4.
    rewrite lineups_written_dirs, Hdirs3. apply Hfixed. set_solver. }
  exists w6,
    ([EMatches 9 281; EMakedirs match_dir; EEvents match_id;
      EFrames match_id; ELineups match_id]
     ++ ((λ tl, EWrite (lineup_path match_dir tl.1)) <$> lineups)
     ++ [EWrite events_path; EWrite metadata_path]).
  split; [exact Hrun|]. split; [|split; [|split; [|split; [|split; [|split]]]]].
  - unfold w6, w5. simpl. unfold w4. rewrite lineups_written_log. simpl.
    now rewrite <- !app_assoc.
  - intros Hin. apply elem_of_app in Hin as [Hin|Hin].
    { repeat (apply elem_of_cons in Hin as [?|Hin]; [done|]).
      by apply elem_of_nil in Hin. }
    apply elem_of_app in Hin as [Hin|Hin].
    { apply list_elem_of_fmap in Hin as (tl & [= E] & _).
      symmetry in E. revert E. apply lineup_path_other. set_solver. }
    repeat (apply elem_of_cons in Hin as [[= E]|Hin];
            [revert E; apply fixed_paths_distinct; set_solver|]).
    by apply elem_of_nil in Hin.
  - unfold w6, w5. simpl.
    rewrite !lookup_insert_ne by (apply fixed_paths_distinct; set_solver).
    unfold w4. rewrite lineups_written_other; [done|].
    intros tl _. apply lineup_path_other. set_solver.
  - change (dirs w6) with (dirs w4). unfold w4.
    rewrite lineups_written_dirs, Hdirs3. set_solver.
  - intros before team df after -> Hafter. unfold w6, w5. simpl.
    rewrite !lookup_insert_ne;
      [|apply not_eq_sym, lineup_path_other; set_solver..].
    now apply lineups_written_last.
  - unfold w6, w5. simpl. rewrite lookup_insert_ne.
    + apply lookup_insert_eq.
    + apply fixed_paths_distinct; set_solver.
  - unfold w6. simpl. apply lookup_insert_eq.
Qed.

End EmptyFrames.

(* ================================================================== *)
(** ** The theorems at the sample tables, with the ASCII interpreter *)
(* ================================================================== *)

Ltac by_computing :=
  first [ reflexivity | apply (bool_decide_unpack _); vm_compute; exact I ].

Section Witnesses.
#[local] Existing Instance ascii_builtins.

Example sanitize_filename_sample :
  sanitize_filename (lit "GW5: Bayer/Bayern_3-0 (final)  ")
  = lit "GW5 BayerBayern_3-0 final".
Proof. reflexivity. Qed.

Example sanitize_team_name_sample :
  sanitize_team_name (lit "1. FC Koeln") = lit "1FCKoeln".
Proof. reflexivity. Qed.

(** The merged sample table: the frame rows of event [a] twice each, the
    frame row of event [b] once, padded. *)
Example merge_frames_sample :
  merge_frames Sample.frames Sample.events
  = Ok {| columns := [lit "id"; lit "match_id"; lit "teammate"; lit "minute"];
          rows := [[PStr (lit "a"); PInt 123; PInt 1; PInt 7];
                   [PStr (lit "a"); PInt 123; PInt 1; PInt 8];
                   [PStr (lit "b"); PInt 123; PInt 0; PNaN];
                   [PStr (lit "a"); PInt 123; PInt 0; PInt 7];
                   [PStr (lit "a"); PInt 123; PInt 0; PInt 8]] |}.
Proof. reflexivity. Qed.

(** C1 as the specification states it, for every match row, is false.
    The sample match with [None] for the home managers gives a document
    whose [home_managers] is [None], neither a list nor the default; and
    the sample match with NaN for the home score gives no document,
    [int] raises [ValueError]. *)
Lemma match_metadata_counterexample :
  (exists doc,
     match_metadata 123 SampleRun.null_managers_row = Ok doc
     ∧ (lit "home_managers", PNone) ∈ doc)
  ∧ bool_decide (metadata_claim 123 SampleRun.null_managers_row) = false
  ∧ match_metadata 123 SampleRun.open_row = Raise ValueError
  ∧ bool_decide (metadata_claim 123 SampleRun.open_row) = false.
Proof.
  split; [|split; [|split]]; try by vm_compute.
  eexists. split; [reflexivity|]. vm_compute. repeat constructor.
Qed.

Lemma match_metadata_complete_witness :
  exists doc,
    match_metadata 123 Sample.match_row = Ok doc
    ∧ length doc = 24%nat
    ∧ doc.*1 = metadata_table.*1.*1
    ∧ NoDup doc.*1
    ∧ Forall2 (entry_ok 123 Sample.match_row) metadata_table doc
    ∧ Forall (λ entry, entry.2 ≠ PNone) doc.
Proof.
  apply (match_metadata_complete 123 Sample.match_row).
  split; intros k v Hk Hv;
    repeat (apply elem_of_cons in Hk as [->|Hk]);
    try (by apply elem_of_nil in Hk);
    vm_compute in Hv; try discriminate;
    injection Hv as <-; try reflexivity; eexists; reflexivity.
Defined.

Lemma match_dir_name_format_witness :
  match_dir_name Sample.match_row
  = Ok (lit "GW5_BayerLeverkusen_3-0_BayernMunich").
Proof.
  apply (match_dir_name_format Sample.match_row
           (lit "Bayer Leverkusen") (lit "Bayern Munich"));
    reflexivity.
Defined.

Lemma suffixes_free_by_labels (frames events : DataFrame) :
  Forall (λ c, c ∈ columns events ->
               (c ++ lit "_x" ∉ columns frames)
               ∧ (c ++ lit "_y" ∉ columns events)) (columns frames) ->
  suffixes_free frames events.
Proof. intros Hall c Hc. rewrite Forall_forall in Hall. now apply Hall. Qed.

Lemma sample_merge_inputs_ok : merge_inputs_ok Sample.frames Sample.events.
Proof.
  unfold merge_inputs_ok, wf_frame, ids_typed, dtypes_kept.
  split_and!; try by_computing; try (intros _; by_computing).
  apply suffixes_free_by_labels. by_computing.
Defined.



Lemma empty_match_list_aborts_witness :
  exists w',
    download_leverkusen_data Sample.idle_provider (lit "matches")
      Sample.empty_world = (Raise IndexError, w')
    ∧ log w' = [EMatches 9 281]
    ∧ dirs w' = ∅
    ∧ files w' = ∅.
Proof.
  apply (empty_match_list_aborts Sample.idle_provider (lit "matches")
           Sample.empty_world Sample.no_matches); reflexivity.
Defined.

Lemma base_directory_first_witness :
  lit "matches" ∈ dirs (main Sample.idle_provider Sample.empty_world).2.
Proof.
  apply (base_directory_first Sample.idle_provider Sample.empty_world).
  reflexivity.
Defined.

Lemma empty_world_no_file_above (dir : str) :
  no_file_above dir Sample.empty_world.
Proof. intros p _. apply lookup_empty. Defined.

Lemma empty_frames_skip_merge_witness :
  exists w' written,
    download_leverkusen_data Sample.provider (lit "matches")
      Sample.empty_world = (Ok tt, w')
    ∧ log w' = written
    ∧ (EWrite (lit "matches/GW5_BayerLeverkusen_3-0_BayernMunich/360_frames.csv")
         ∉ written)
    ∧ files w'
        !! lit "matches/GW5_BayerLeverkusen_3-0_BayernMunich/events.csv"
      = Some (Csv Sample.events).
Proof.
  edestruct (empty_frames_skip_merge Sample.provider (lit "matches")
               Sample.empty_world Sample.matches Sample.match_row
               (PInt 123) 123
               (lit "GW5_BayerLeverkusen_3-0_BayernMunich")
               Sample.events Sample.no_frames Sample.lineups)
    as (w' & written & Hrun & Hlog & Hno & _ & _ & _ & Hev & _);
    try reflexivity.
  - apply empty_world_no_file_above.
  - intros p Hp. by apply elem_of_empty in Hp.
  - exists w', written. repeat split; assumption.
Defined.

End Witnesses.

(* ================================================================== *)
(** ** Lists of writes *)
(* ================================================================== *)

Section Writes.

Lemma write_all_snoc (ws : list (str * Content)) (pc : str * Content)
    (w : World) :
  write_all (ws ++ [pc]) w
  = put_file pc.1 pc.2 (record (EWrite pc.1) (write_all ws w)).
Proof. unfold write_all. now rewrite foldl_app. Qed.

Lemma write_all_app (ws1 ws2 : list (str * Content)) (w : World) :
  write_all (ws1 ++ ws2) w = write_all ws2 (write_all ws1 w).
Proof. unfold write_all. now rewrite foldl_app. Qed.

Lemma write_all_dirs (ws : list (str * Content)) (w : World) :
  dirs (write_all ws w) = dirs w.
Proof.
  induction ws as [|pc ws IH] using rev_ind; [done|].
  now rewrite write_all_snoc.
Qed.

Lemma write_all_log (ws : list (str * Content)) (w : World) :
  log (write_all ws w) = log w ++ (EWrite <$> ws.*1).
Proof.
  induction ws as [|pc ws IH] using rev_ind.
  - simpl. now rewrite app_nil_r.
  - rewrite write_all_snoc. simpl. rewrite IH, !fmap_app. simpl.
    now rewrite <- app_assoc.
Qed.

Lemma last_write_snoc (ws : list (str * Content)) (pc : str * Content)
    (p : str) :
  last_write (ws ++ [pc]) p
  = if decide (pc.1 = p) then Some pc.2 else last_write ws p.
Proof.
  unfold last_write. rewrite filter_app.
  destruct (decide (pc.1 = p)) as [E|E].
  - rewrite filter_cons_True by done. rewrite filter_nil.
    now rewrite last_snoc.
  - rewrite filter_cons_False by done. rewrite filter_nil.
    now rewrite app_nil_r.
Qed.

(** A path holds what was written to it last, or what it held before. *)
Lemma write_all_lookup (ws : list (str * Content)) (w : World) (p : str) :
  files (write_all ws w) !! p
  = match last_write ws p with
    | Some c => Some c
    | None => files w !! p
    end.
Proof.
  induction ws as [|pc ws IH] using rev_ind; [done|].
  rewrite write_all_snoc, last_write_snoc. simpl.
  destruct (decide (pc.1 = p)) as [<-|E].
  - apply lookup_insert_eq.
  - now rewrite lookup_insert_ne.
Qed.

Lemma last_write_app (ws1 ws2 : list (str * Content)) (p : str) :
  last_write (ws1 ++ ws2) p
  = match last_write ws2 p with
    | Some c => Some c
    | None => last_write ws1 p
    end.
Proof.
  induction ws2 as [|pc ws2 IH] using rev_ind.
  - now rewrite app_nil_r.
  - rewrite app_assoc, !last_write_snoc, IH. now destruct (decide (pc.1 = p)).
Qed.

Lemma last_write_absent (ws : list (str * Content)) (p : str) :
  p ∉ ws.*1 -> last_write ws p = None.
Proof.
  intros Hp. unfold last_write. rewrite filter_none; [done|].
  intros pc Hpc E. apply Hp. apply list_elem_of_fmap. eauto.
Qed.

(** Writing the same list of files a second time changes no file. *)
Lemma write_all_twice_files (ws : list (str * Content)) (w w' : World) :
  files w' = files (write_all ws w) ->
  files (write_all ws w') = files (write_all ws w).
Proof.
  intros E. apply map_eq. intros p. rewrite !write_all_lookup, E.
  rewrite write_all_lookup. now destruct (last_write ws p).
Qed.

End Writes.

(* ================================================================== *)
(** ** The outcome of a run whose provider calls succeed *)
(* ================================================================== *)

Ltac run_ok_step :=
  erewrite bind_ok;
  [|solve [ unfold call, lift, getitem; simpl;
            match goal with H : _ = _ |- _ => rewrite H; reflexivity end ]].

Section Outcome.
Context `{Builtins}.
Variable provider : Provider.

Lemma os_path_join_fresh (dir name : str) (w : World) :
  no_dir_below dir w -> name ≠ [] -> head name ≠ Some 47%N ->
  os_path_join dir name ∉ dirs w.
Proof.
  intros Hw Hne Hrel Hin.
  apply (os_path_join_not_dir dir name w Hw Hne Hrel). set_solver.
Qed.

Lemma fixed_path_fresh (dir : str) (name : string) (w : World) :
  name ∈ ["360_frames.csv"; "events.csv"; "metadata.json"]%string ->
  no_dir_below dir w ->
  os_path_join dir (lit name) ∉ dirs w.
Proof.
  intros Hn Hw. apply os_path_join_fresh; [done| |];
    repeat (apply elem_of_cons in Hn as [->|Hn]; [done|]);
    by apply elem_of_nil in Hn.
Qed.

Lemma lineup_path_fresh (dir team : str) (w : World) :
  no_dir_below dir w -> lineup_path dir team ∉ dirs w.
Proof.
  intros Hw. apply os_path_join_fresh; [done| |].
  - apply lineup_name_nonempty.
  - apply lineup_name_relative.
Qed.

Lemma no_dir_below_add (dir : str) (w : World) :
  no_dir_below dir w -> no_dir_below dir (add_dir dir w).
Proof.
  intros Hw p [->%elem_of_singleton|Hp]%elem_of_union Hpre; [done|].
  now apply Hw.
Qed.

Lemma lineups_written_write_all (match_dir : str)
    (lineups : list (str * DataFrame)) (w : World) :
  lineups_written match_dir lineups w
  = write_all (lineup_writes match_dir lineups) w.
Proof.
  revert w. unfold lineups_written, write_all, lineup_writes.
  induction lineups as [|tl rest IH]; intros w; [done|].
  simpl. apply IH.
Qed.

Lemma download_unfold (base_path : str) (w : World) (d : RunData) :
  sb_matches provider 9 281 = Ok (rd_matches d) ->
  iloc0 (rd_matches d) = Ok (rd_row d) ->
  rd_row d !! lit "match_id" = Some (rd_id_cell d) ->
  py_int (rd_id_cell d) = Ok (rd_match_id d) ->
  match_dir_name (rd_row d) = Ok (rd_name d) ->
  download_leverkusen_data provider base_path w
  = bind (makedirs (rd_match_dir base_path d))
      (λ _, fetch_and_persist provider (rd_match_dir base_path d)
              (rd_match_id d) (rd_row d))
      (record (EMatches 9 281) w).
Proof.
  intros Hm Hrow Hid Hint Hname. unfold download_leverkusen_data.
  do 5 run_ok_step. reflexivity.
Qed.

(** What the run does after the match directory is made, by the outcome
    of the merge and of the metadata builder. *)
Lemma fetch_and_persist_outcome (match_dir : str) (w : World) (d : RunData) :
  sb_events provider (rd_match_id d) = Ok (rd_events d) ->
  sb_frames provider (rd_match_id d) = Ok (rd_frames d) ->
  sb_lineups provider (rd_match_id d) = Ok (rd_lineups d) ->
  no_dir_below match_dir w ->
  let w3 := record (ELineups (rd_match_id d))
              (record (EFrames (rd_match_id d))
                 (record (EEvents (rd_match_id d)) w)) in
  let lws := lineup_writes match_dir (rd_lineups d) in
  fetch_and_persist provider match_dir (rd_match_id d) (rd_row d) w
  = match merge_step (rd_frames d) (rd_events d) with
    | Raise e => (Raise e, write_all lws w3)
    | Ok merged =>
        let ws := lws ++ frames_write match_dir merged
                    ++ events_write match_dir (rd_events d) in
        match match_metadata (rd_match_id d) (rd_row d) with
        | Raise e => (Raise e, write_all ws w3)
        | Ok doc =>
            if json_serialisable doc
            then (Ok tt, write_all (ws ++ metadata_write match_dir doc) w3)
            else (Raise TypeError,
                  write_all (ws ++ metadata_unfinished match_dir) w3)
        end
    end.
Proof.
  intros Hev Hfr Hlu Hbelow w3 lws. unfold fetch_and_persist.
  do 3 run_ok_step. fold w3.
  assert (Hd3 : forall ws, dirs (write_all ws w3) = dirs w)
    by (intros ws; now rewrite write_all_dirs).
  erewrite bind_ok; cycle 1.
  { apply save_lineups_ok. intros tl _. now apply lineup_path_fresh. }
  rewrite lineups_written_write_all. fold lws.
  assert (Htail : forall ws, dirs (write_all ws w3) = dirs w ->
    bind (to_csv (rd_events d) (os_path_join match_dir (lit "events.csv")))
      (λ _, bind (lift (match_metadata (rd_match_id d) (rd_row d)))
              (λ doc, json_dump doc
                        (os_path_join match_dir (lit "metadata.json"))))
      (write_all ws w3)
    = match match_metadata (rd_match_id d) (rd_row d) with
      | Raise e =>
          (Raise e, write_all (ws ++ events_write match_dir (rd_events d)) w3)
      | Ok doc =>
          if json_serialisable doc
          then (Ok tt, write_all ((ws ++ events_write match_dir (rd_events d))
                                  ++ metadata_write match_dir doc) w3)
          else (Raise TypeError,
                write_all ((ws ++ events_write match_dir (rd_events d))
                           ++ metadata_unfinished match_dir) w3)
      end).
  { intros ws Hdirs. unfold to_csv, json_dump.
    erewrite bind_ok; cycle 1.
    { apply write_file_ok. rewrite Hdirs.
      apply fixed_path_fresh; [repeat constructor|done]. }
    unfold events_write, metadata_write, metadata_unfinished.
    destruct (match_metadata (rd_match_id d) (rd_row d)) as [doc|e];
      [destruct (json_serialisable doc) eqn:Hjson|];
      rewrite !write_all_snoc; simpl.
    - erewrite bind_ok; [|reflexivity]. rewrite Hjson.
      apply write_file_ok. simpl. rewrite Hdirs.
      apply fixed_path_fresh; [repeat constructor|done].
    - erewrite bind_ok; [|reflexivity]. rewrite Hjson.
      erewrite bind_ok; [reflexivity|].
      apply write_file_ok. simpl. rewrite Hdirs.
      apply fixed_path_fresh; [repeat constructor|done].
    - now apply bind_raise. }
  unfold merge_step. destruct (negb (df_empty (rd_frames d))).
  - destruct (merge_frames (rd_frames d) (rd_events d)) as [merged|e].
    + erewrite bind_ok; cycle 1.
      { erewrite bind_ok; [|reflexivity].
        apply write_file_ok. rewrite Hd3.
        apply fixed_path_fresh; [repeat constructor|done]. }
      change (put_file ?p ?c (record (EWrite ?p) (write_all lws w3)))
        with (put_file (p, c).1 (p, c).2
                (record (EWrite (p, c).1) (write_all lws w3))).
      rewrite <- write_all_snoc. rewrite Htail by apply Hd3.
      cbv zeta. unfold frames_write.
      destruct (match_metadata (rd_match_id d) (rd_row d)) as [doc|e];
        [destruct (json_serialisable doc)|];
        now rewrite <- ?app_assoc.
    + apply bind_raise. now apply bind_raise.
  - erewrite bind_ok; [|reflexivity]. rewrite Htail by apply Hd3.
    cbv zeta. unfold frames_write.
    destruct (match_metadata (rd_match_id d) (rd_row d)) as [doc|e];
      [destruct (json_serialisable doc)|];
      now rewrite <- ?app_assoc.
Qed.

(** The outcome of a run whose provider calls succeed. *)
Lemma download_outcome (base_path : str) (w : World) (d : RunData) :
  fetch_ok provider d ->
  fs_ok base_path d w ->
  let match_dir := rd_match_dir base_path d in
  let w3 := fetched match_dir (rd_match_id d) w in
  let lws := lineup_writes match_dir (rd_lineups d) in
  download_leverkusen_data provider base_path w
  = match merge_step (rd_frames d) (rd_events d) with
    | Raise e => (Raise e, write_all lws w3)
    | Ok merged =>
        let ws := lws ++ frames_write match_dir merged
                    ++ events_write match_dir (rd_events d) in
        match match_metadata (rd_match_id d) (rd_row d) with
        | Raise e => (Raise e, write_all ws w3)
        | Ok doc =>
            if json_serialisable doc
            then (Ok tt, write_all (ws ++ metadata_write match_dir doc) w3)
            else (Raise TypeError,
                  write_all (ws ++ metadata_unfinished match_dir) w3)
        end
    end.
Proof.
  intros (Hm & Hrow & Hid & Hint & Hname & Hev & Hfr & Hlu) [Hfree Hbelow].
  intros match_dir w3 lws.
  rewrite (download_unfold base_path w d) by done.
  erewrite bind_ok;
    [|apply makedirs_ok; [now apply (match_dir_nonempty (rd_row d))|done]].
  rewrite fetch_and_persist_outcome; try done.
  now apply no_dir_below_add.
Qed.

End Outcome.

(* ================================================================== *)
(** ** The files of a run *)
(* ================================================================== *)

Section RunFiles.
Context `{Builtins}.

Lemma last_write_single (q p : str) (c : Content) :
  last_write [(q, c)] p = if decide (q = p) then Some c else None.
Proof. apply (last_write_snoc [] (q, c) p). Qed.

Lemma lineup_writes_paths (match_dir : str) (lineups : list (str * DataFrame)) :
  (lineup_writes match_dir lineups).*1 = lineup_path match_dir <$> lineups.*1.
Proof.
  unfold lineup_writes. rewrite <- !list_fmap_compose.
  now apply list_fmap_ext.
Qed.

Lemma last_write_lineups_fixed (match_dir : str)
    (lineups : list (str * DataFrame)) (name : string) :
  name ∈ ["360_frames.csv"; "events.csv"; "metadata.json"]%string ->
  last_write (lineup_writes match_dir lineups)
    (os_path_join match_dir (lit name)) = None.
Proof.
  intros Hn. apply last_write_absent. rewrite lineup_writes_paths.
  intros (team & E & _)%list_elem_of_fmap. symmetry in E. revert E.
  now apply lineup_path_other.
Qed.

(** The lineup file of a team holds the table of the last team of the
    loop that has its sanitized name. *)
Lemma last_write_lineups (match_dir : str) (team : str) (df : DataFrame)
    (before after : list (str * DataFrame)) :
  (forall tl, tl ∈ after ->
              sanitize_team_name tl.1 ≠ sanitize_team_name team) ->
  last_write (lineup_writes match_dir (before ++ (team, df) :: after))
    (lineup_path match_dir team) = Some (Csv df).
Proof.
  intros Hafter. unfold lineup_writes. rewrite fmap_app, fmap_cons.
  rewrite last_write_app.
  change ((λ tl : str * DataFrame, (lineup_path match_dir tl.1, Csv tl.2))
            <$> after) with (lineup_writes match_dir after).
  change (?x :: lineup_writes match_dir after)
    with ([x] ++ lineup_writes match_dir after).
  rewrite last_write_app, last_write_absent.
  - rewrite last_write_single. simpl. now rewrite decide_True.
  - rewrite lineup_writes_paths.
    intros (t & E & Ht)%list_elem_of_fmap.
    apply list_elem_of_fmap in Ht as (tl & -> & Htl).
    symmetry in E. apply lineup_path_inj in E. now apply (Hafter tl).
Qed.

Lemma last_write_frames_other (match_dir : str) (merged : option DataFrame)
    (p : str) :
  p ≠ os_path_join match_dir (lit "360_frames.csv") ->
  last_write (frames_write match_dir merged) p = None.
Proof.
  intros Hp. destruct merged as [m|]; [|done].
  unfold frames_write. rewrite last_write_single. now rewrite decide_False.
Qed.

(** The files with fixed names after all writes of a run. *)
Lemma run_files_fixed (match_dir : str) (lineups : list (str * DataFrame))
    (merged : option DataFrame) (events_df : DataFrame)
    (doc : list (str * pyval)) (w : World) :
  let ws := (lineup_writes match_dir lineups ++ frames_write match_dir merged
             ++ events_write match_dir events_df)
            ++ metadata_write match_dir doc in
  files (write_all ws w) !! os_path_join match_dir (lit "metadata.json")
  = Some (Json doc)
  ∧ files (write_all ws w) !! os_path_join match_dir (lit "events.csv")
    = Some (Csv events_df)
  ∧ files (write_all ws w) !! os_path_join match_dir (lit "360_frames.csv")
    = match merged with
      | Some m => Some (Csv m)
      | None => files w !! os_path_join match_dir (lit "360_frames.csv")
      end.
Proof.
  intros ws. subst ws. rewrite !write_all_lookup, !last_write_app.
  unfold metadata_write, events_write. rewrite !last_write_single.
  split; [|split].
  - now rewrite decide_True.
  - rewrite decide_False by (apply fixed_paths_distinct; set_solver).
    now rewrite decide_True.
  - rewrite !decide_False by (apply fixed_paths_distinct; set_solver).
    rewrite last_write_lineups_fixed by set_solver.
    destruct merged as [m|]; [|done].
    unfold frames_write. rewrite last_write_single. now rewrite decide_True.
Qed.

(** A lineup file after all writes of a run. *)
Lemma run_files_lineup (match_dir : str) (lineups : list (str * DataFrame))
    (rest : list (str * Content)) (team : str) (w : World) :
  rest.*1 ⊆ (λ name : string, os_path_join match_dir (lit name))
              <$> ["360_frames.csv"; "events.csv"; "metadata.json"]%string ->
  files (write_all (lineup_writes match_dir lineups ++ rest) w)
    !! lineup_path match_dir team
  = match last_write (lineup_writes match_dir lineups)
            (lineup_path match_dir team) with
    | Some c => Some c
    | None => files w !! lineup_path match_dir team
    end.
Proof.
  intros Hrest. rewrite write_all_lookup, last_write_app.
  rewrite (last_write_absent rest); [done|].
  intros Hin. apply Hrest in Hin.
  apply list_elem_of_fmap in Hin as (name & E & Hn).
  revert E. now apply lineup_path_other.
Qed.

End RunFiles.

(* ================================================================== *)
(** ** Successful and interrupted runs *)
(* ================================================================== *)

Section RunOutcomes.
Context `{Builtins}.
Variable provider : Provider.

Lemma last_write_lineups_some (match_dir team : str) (df : DataFrame)
    (lineups : list (str * DataFrame)) :
  (team, df) ∈ lineups ->
  exists df', last_write (lineup_writes match_dir lineups)
                (lineup_path match_dir team) = Some (Csv df').
Proof.
  induction lineups as [|tl lineups IH] using rev_ind;
    [by intros ?%elem_of_nil|].
  intros Hin. unfold lineup_writes in *. rewrite fmap_app. simpl.
  rewrite last_write_snoc. simpl.
  destruct (decide (lineup_path match_dir tl.1 = lineup_path match_dir team));
    [eauto|].
  apply IH. apply elem_of_app in Hin as [Hin|Hin]; [done|].
  apply list_elem_of_singleton in Hin as <-. done.
Qed.

Lemma fetched_log (match_dir : str) (match_id : Z) (w : World)
    (ws : list (str * Content)) :
  log (write_all ws (fetched match_dir match_id w))
  = log w ++ [EMatches 9 281; EMakedirs match_dir; EEvents match_id;
              EFrames match_id; ELineups match_id]
      ++ (EWrite <$> ws.*1).
Proof.
  rewrite write_all_log. unfold fetched. simpl.
  now rewrite <- !app_assoc.
Qed.

Lemma fetched_dirs (match_dir : str) (match_id : Z) (w : World)
    (ws : list (str * Content)) :
  dirs (write_all ws (fetched match_dir match_id w))
  = {[match_dir]} ∪ dirs w.
Proof. now rewrite write_all_dirs. Qed.

(** X3.  A run whose calls all succeed, whose metadata document
    [json.dump] can write and which finds no file in the way of the match
    directory asks once for the match directory, which is
    there afterwards with every directory that was there before, fetches
    events, frames and lineups in this order and only then writes: the
    lineup files in the order of the lineups, the merged frames if there
    are any, the events, the metadata. *)
Theorem successful_run_trace (base_path : str) (w : World) (d : RunData)
    (merged : option DataFrame) (doc : list (str * pyval)) :
  fetch_ok provider d ->
  fs_ok base_path d w ->
  merge_step (rd_frames d) (rd_events d) = Ok merged ->
  match_metadata (rd_match_id d) (rd_row d) = Ok doc ->
  json_serialisable doc = true ->
  let match_dir := rd_match_dir base_path d in
  no_file_above match_dir w ->
  exists w',
    download_leverkusen_data provider base_path w = (Ok tt, w')
    ∧ match_dir ∈ dirs w'
    ∧ dirs w ⊆ dirs w'
    ∧ log w'
      = log w
        ++ [EMatches 9 281; EMakedirs match_dir; EEvents (rd_match_id d);
            EFrames (rd_match_id d); ELineups (rd_match_id d)]
        ++ (EWrite <$> (lineup_path match_dir <$> (rd_lineups d).*1)
                       ++ (frames_write match_dir merged).*1
                       ++ [os_path_join match_dir (lit "events.csv");
                           os_path_join match_dir (lit "metadata.json")]).
Proof.
  intros Hfetch Hfs Hmerge Hdoc Hjson match_dir _.
  pose proof (download_outcome provider base_path w d Hfetch Hfs) as Hrun.
  cbv zeta in Hrun. rewrite Hmerge, Hdoc, Hjson in Hrun.
  eexists. split; [exact Hrun|].
  rewrite fetched_dirs. fold match_dir.
  split; [set_solver|]. split; [set_solver|].
  rewrite fetched_log. do 2 f_equal.
  rewrite !fmap_app, lineup_writes_paths. fold match_dir.
  now rewrite <- !app_assoc.
Qed.

(** X4.  With a frame table that is not empty, a merge that succeeds, a
    metadata document [json.dump] can write and no file in the way of the
    match directory, the merged table is what
    [360_frames.csv] holds after the run, next to [events.csv] with the
    event table, [metadata.json] with the document and, for every team,
    the lineup file with its table (the table of the last team with that
    sanitized name). *)
Theorem nonempty_frames_written (base_path : str) (w : World) (d : RunData)
    (merged_df : DataFrame) (doc : list (str * pyval)) :
  fetch_ok provider d ->
  fs_ok base_path d w ->
  df_empty (rd_frames d) = false ->
  merge_frames (rd_frames d) (rd_events d) = Ok merged_df ->
  match_metadata (rd_match_id d) (rd_row d) = Ok doc ->
  json_serialisable doc = true ->
  let match_dir := rd_match_dir base_path d in
  no_file_above match_dir w ->
  exists w',
    download_leverkusen_data provider base_path w = (Ok tt, w')
    ∧ files w' !! os_path_join match_dir (lit "360_frames.csv")
      = Some (Csv merged_df)
    ∧ files w' !! os_path_join match_dir (lit "events.csv")
      = Some (Csv (rd_events d))
    ∧ files w' !! os_path_join match_dir (lit "metadata.json")
      = Some (Json doc)
    ∧ (forall before team df after,
         rd_lineups d = before ++ (team, df) :: after ->
         Forall (λ tl, sanitize_team_name tl.1 ≠ sanitize_team_name team)
           after ->
         files w' !! lineup_path match_dir team = Some (Csv df)).
Proof.
  intros Hfetch Hfs Hne Hmerge Hdoc Hjson match_dir _.
  pose proof (download_outcome provider base_path w d Hfetch Hfs) as Hrun.
  cbv zeta in Hrun. unfold merge_step in Hrun.
  rewrite Hne, Hmerge, Hdoc, Hjson in Hrun. simpl in Hrun.
  fold match_dir in Hrun.
  eexists. split; [exact Hrun|].
  destruct (run_files_fixed match_dir (rd_lineups d) (Some merged_df)
              (rd_events d) doc (fetched match_dir (rd_match_id d) w))
    as (Hmeta & Hev & H360).
  split; [exact H360|]. split; [exact Hev|]. split; [exact Hmeta|].
  intros before team df after Hlu Hafter.
  rewrite <- app_assoc, run_files_lineup.
  - rewrite Hlu, last_write_lineups; [done|].
    now apply Forall_forall.
  - simpl. set_solver.
Qed.




End RunOutcomes.

(* ================================================================== *)
(** ** Runs that stop early, runs that are repeated *)
(* ================================================================== *)

Section EarlyStops.
Context `{Builtins}.
Variable provider : Provider.

(** X1.  A first row without [match_id], [home_team] or [away_team] stops the
    run with [KeyError] right after the match list is fetched: no
    directory is made, no file written, no other call made.  The defaults
    the metadata builder has for the two team names are never used by a
    run. *)
Theorem missing_key_aborts (base_path : str) (w : World)
    (matches : DataFrame) (row : gmap (list N) pyval) :
  sb_matches provider 9 281 = Ok matches ->
  iloc0 matches = Ok row ->
  row !! lit "match_id" = None
  ∨ (exists v z, row !! lit "match_id" = Some v ∧ py_int v = Ok z)
    ∧ (row !! lit "home_team" = None
       ∨ (exists h, row !! lit "home_team" = Some (PStr h))
         ∧ row !! lit "away_team" = None) ->
  download_leverkusen_data provider base_path w
  = (Raise KeyError, record (EMatches 9 281) w).
Proof.
  intros Hm Hrow Hmissing. unfold download_leverkusen_data.
  do 2 run_ok_step.
  destruct Hmissing as [Hid|[(v & z & Hid & Hint) Hteam]].
  - apply bind_raise. unfold lift, getitem. now rewrite Hid.
  - do 2 run_ok_step. apply bind_raise.
    unfold lift, match_dir_name, getitem.
    destruct Hteam as [Hh|[[h Hh] Ha]]; rewrite Hh; [done|].
    simpl. now rewrite Ha.
Qed.


(** X10.  When a regular file has the name of the base directory, [main] ends
    with [FileExistsError] before it calls the provider. *)
Theorem main_stops_at_blocked_base (w : World) (c : Content) :
  files w !! lit "matches" = Some c ->
  main provider w
  = (Raise FileExistsError, record (EMakedirs (lit "matches")) w).
Proof.
  intros Hfile. unfold main, create_data_directory.
  apply bind_raise, bind_raise. unfold makedirs. simpl. now rewrite Hfile.
Qed.

(** X11.  For a path of one component (not empty, no separator, no NUL)
    that no regular file has, [create_data_directory] returns the path it
    is given and the directory is there; calling it again for the
    directory that is there already changes neither the directories nor
    the files. *)
Theorem create_data_directory_again (base_path : str) (w : World) :
  path_component base_path ->
  files w !! base_path = None ->
  exists w1 w2,
    create_data_directory base_path w = (Ok base_path, w1)
    ∧ create_data_directory base_path w1 = (Ok base_path, w2)
    ∧ dirs w1 = {[base_path]} ∪ dirs w
    ∧ dirs w2 = dirs w1
    ∧ files w2 = files w.
Proof.
  intros (Hne & _ & _) Hfree. unfold create_data_directory.
  eexists. eexists. split; [|split].
  - erewrite bind_ok; [reflexivity|]. now apply makedirs_ok.
  - erewrite bind_ok; [reflexivity|]. now apply makedirs_ok.
  - simpl. repeat split. now rewrite (assoc_L (∪)), union_idemp_L.
Qed.

End EarlyStops.

Section Selection.
Context `{Builtins}.

(** X9.  Only the first row of the match list matters: two providers that
    agree on the first match and on its tables give the same run,
    whatever else their match lists hold. *)
Theorem only_first_match_used (p1 p2 : Provider) (m1 m2 : DataFrame)
    (base_path : str) (w : World) :
  sb_matches p1 9 281 = Ok m1 ->
  sb_matches p2 9 281 = Ok m2 ->
  columns m1 = columns m2 ->
  head (rows m1) = head (rows m2) ->
  sb_events p1 = sb_events p2 ->
  sb_frames p1 = sb_frames p2 ->
  sb_lineups p1 = sb_lineups p2 ->
  download_leverkusen_data p1 base_path w
  = download_leverkusen_data p2 base_path w.
Proof.
  intros H1 H2 Hcols Hhead Hev Hfr Hlu.
  unfold download_leverkusen_data.
  erewrite (bind_ok _ _ w); [|unfold call; now rewrite H1].
  erewrite (bind_ok _ _ w); [|unfold call; now rewrite H2].
  assert (Hrow : iloc0 m1 = iloc0 m2).
  { unfold iloc0. rewrite Hcols.
    destruct (rows m1), (rows m2); simpl in Hhead; congruence. }
  rewrite Hrow, Hev, Hfr, Hlu. reflexivity.
Qed.

End Selection.

Section Reruns.
Context `{Builtins}.
Variable provider : Provider.

Lemma run_paths_below (match_dir : str) (lineups : list (str * DataFrame))
    (merged : option DataFrame) (events_df : DataFrame)
    (doc : list (str * pyval)) :
  match_dir
  ∉ ((lineup_writes match_dir lineups ++ frames_write match_dir merged
      ++ events_write match_dir events_df)
     ++ metadata_write match_dir doc).*1.
Proof.
  assert (Hbelow : no_dir_below match_dir
                     {| dirs := ∅; files := ∅; log := [] |})
    by (intros p Hp; by apply elem_of_empty in Hp).
  assert (Hfixed : forall name : string,
            name ∈ ["360_frames.csv"; "events.csv"; "metadata.json"]%string ->
            match_dir ≠ os_path_join match_dir (lit name)).
  { intros name Hn E.
    apply (os_path_join_not_dir match_dir (lit name) _ Hbelow).
    - repeat (apply elem_of_cons in Hn as [->|Hn]; [done|]).
      by apply elem_of_nil in Hn.
    - repeat (apply elem_of_cons in Hn as [->|Hn]; [done|]).
      by apply elem_of_nil in Hn.
    - rewrite <- E. apply elem_of_union. left. now apply elem_of_singleton. }
  rewrite !fmap_app, lineup_writes_paths.
  intros [[Hin|[Hin|Hin]%elem_of_app]%elem_of_app|Hin]%elem_of_app.
  - apply list_elem_of_fmap in Hin as (team & E & _).
    apply (os_path_join_not_dir match_dir
             (sanitize_team_name team ++ lit "_lineups.csv") _ Hbelow).
    + apply lineup_name_nonempty.
    + apply lineup_name_relative.
    + fold (lineup_path match_dir team). rewrite <- E.
      apply elem_of_union. left. now apply elem_of_singleton.
  - destruct merged as [m|]; simpl in Hin.
    + apply list_elem_of_singleton in Hin. revert Hin.
      apply Hfixed. repeat constructor.
    + by apply elem_of_nil in Hin.
  - simpl in Hin. apply list_elem_of_singleton in Hin. revert Hin.
    apply Hfixed. repeat constructor.
  - simpl in Hin. apply list_elem_of_singleton in Hin. revert Hin.
    apply Hfixed. repeat constructor.
Qed.

(** X7.  A second run on top of a successful one, with the provider
    answering as before, succeeds again and leaves the same directories
    and the same files: every artifact is written over by an equal
    one. *)
Theorem rerun_overwrites (base_path : str) (w w' : World) (d : RunData) :
  fetch_ok provider d ->
  fs_ok base_path d w ->
  download_leverkusen_data provider base_path w = (Ok tt, w') ->
  exists w'',
    download_leverkusen_data provider base_path w' = (Ok tt, w'')
    ∧ dirs w'' = dirs w'
    ∧ files w'' = files w'.
Proof.
  intros Hfetch [Hfree Hbelow] Hrun.
  pose proof (download_outcome provider base_path w d Hfetch
                (conj Hfree Hbelow)) as Hout.
  cbv zeta in Hout. rewrite Hrun in Hout.
  destruct (merge_step (rd_frames d) (rd_events d)) as [merged|] eqn:Em;
    [|discriminate].
  destruct (match_metadata (rd_match_id d) (rd_row d)) as [doc|] eqn:Ed;
    [|discriminate].
  destruct (json_serialisable doc) eqn:Ej; [|discriminate].
  injection Hout as ->.
  set (match_dir := rd_match_dir base_path d) in *.
  set (ws := (lineup_writes match_dir (rd_lineups d)
              ++ frames_write match_dir merged
              ++ events_write match_dir (rd_events d))
             ++ metadata_write match_dir doc) in *.
  set (w1 := write_all ws (fetched match_dir (rd_match_id d) w)).
  assert (Hfs1 : fs_ok base_path d w1).
  { split; fold match_dir.
    - unfold w1. rewrite write_all_lookup, last_write_absent; [done|].
      apply run_paths_below.
    - intros p Hp. unfold w1 in Hp. rewrite fetched_dirs in Hp.
      apply elem_of_union in Hp as [->%elem_of_singleton|Hp]; [done|].
      now apply Hbelow. }
  pose proof (download_outcome provider base_path w1 d Hfetch Hfs1) as Hout.
  cbv zeta in Hout. rewrite Em, Ed, Ej in Hout. fold match_dir ws in Hout.
  eexists. split; [exact Hout|]. split.
  - unfold w1. rewrite !fetched_dirs.
    now rewrite (assoc_L (∪)), union_idemp_L.
  - now apply write_all_twice_files.
Qed.

(** X8.  When two teams of the lineups have the same sanitized name, they
    share one lineup file, and after the run it holds the table of the
    one that comes last. *)
Theorem last_lineup_wins (base_path : str) (w w' : World) (d : RunData)
    (team : str) (df : DataFrame) (before after : list (str * DataFrame)) :
  fetch_ok provider d ->
  fs_ok base_path d w ->
  download_leverkusen_data provider base_path w = (Ok tt, w') ->
  rd_lineups d = before ++ (team, df) :: after ->
  (forall tl, tl ∈ after ->
              sanitize_team_name tl.1 ≠ sanitize_team_name team) ->
  forall team0,
    sanitize_team_name team0 = sanitize_team_name team ->
    files w' !! lineup_path (rd_match_dir base_path d) team0
    = Some (Csv df).
Proof.
  intros Hfetch Hfs Hrun Hsplit Hafter team0 Hsame.
  pose proof (download_outcome provider base_path w d Hfetch Hfs) as Hout.
  cbv zeta in Hout. rewrite Hrun in Hout.
  destruct (merge_step (rd_frames d) (rd_events d)) as [merged|];
    [|discriminate].
  destruct (match_metadata (rd_match_id d) (rd_row d)) as [doc|];
    [|discriminate].
  destruct (json_serialisable doc); [|discriminate].
  injection Hout as ->.
  apply (lineup_path_inj (rd_match_dir base_path d)) in Hsame as ->.
  rewrite <- !app_assoc, run_files_lineup.
  - rewrite Hsplit. now rewrite last_write_lineups.
  - rewrite !fmap_app. intros p Hin.
    destruct merged; simpl in *;
      repeat (apply elem_of_cons in Hin as [->|Hin]; [repeat constructor|]);
      by apply elem_of_nil in Hin.
Qed.

End Reruns.

(* ================================================================== *)
(** ** More on the frame-event merger *)
(* ================================================================== *)

Section MergerShape.

Lemma rename_absent (old new : str) (cols : list str) :
  old ∉ cols -> rename_label old new <$> cols = cols.
Proof.
  induction cols as [|c cols IH]; intros Hold; [done|].
  apply not_elem_of_cons in Hold as [Hne Hold].
  rewrite fmap_cons, IH by done.
  unfold rename_label. now rewrite decide_False by congruence.
Qed.

Lemma rename_back (old new : str) (cols : list str) :
  old ∉ cols ->
  rename_label old new <$> (rename_label new old <$> cols) = cols.
Proof.
  induction cols as [|c cols IH]; intros Hold; [done|].
  apply not_elem_of_cons in Hold as [Hne Hold].
  rewrite !fmap_cons, IH by done. f_equal. unfold rename_label.
  destruct (decide (c = new)) as [->|Hc].
  - now rewrite decide_True.
  - now rewrite decide_False by congruence.
Qed.

Lemma rename_count_new (old new : str) (cols : list str) :
  old ≠ new ->
  length (filter (λ c, c = new) (rename_label old new <$> cols))
  = (length (filter (λ c, c = old) cols)
     + length (filter (λ c, c = new) cols))%nat.
Proof.
  intros Hne. induction cols as [|c cols IH]; [done|].
  rewrite fmap_cons, !filter_cons. unfold rename_label at 1.
  repeat case_decide; subst; simpl; rewrite ?IH; try lia; congruence.
Qed.

Lemma rename_count_other (old new k : str) (cols : list str) :
  k ≠ old -> k ≠ new ->
  length (filter (λ c, c = k) (rename_label old new <$> cols))
  = length (filter (λ c, c = k) cols).
Proof.
  intros Hko Hkn. induction cols as [|c cols IH]; [done|].
  rewrite fmap_cons, !filter_cons. unfold rename_label at 1.
  repeat case_decide; subst; simpl; rewrite ?IH; try lia; congruence.
Qed.

Lemma filter_eq_count (k : str) (cols : list str) :
  NoDup cols ->
  length (filter (λ c, c = k) cols) = if decide (k ∈ cols) then 1%nat else 0%nat.
Proof.
  intros Hn. destruct (decide (k ∈ cols)).
  - now apply filter_eq_once.
  - now rewrite filter_eq_absent.
Qed.

Variables frames events : DataFrame.

(** X14.  For a frame table without an [event_uuid] column, such as one
    that calls its link column [id] already, the rename changes nothing:
    the table is joined as it is, and the merged table is the one a table
    with the column called [event_uuid] gives. *)
Theorem link_column_named_id :
  lit "event_uuid" ∉ columns frames ->
  merge_frames frames events
  = pd_merge_left frames events [lit "match_id"; lit "id"]
  ∧ merge_frames (rename_column (lit "id") (lit "event_uuid") frames) events
    = merge_frames frames events.
Proof.
  intros Hno.
  assert (E1 : rename_column (lit "event_uuid") (lit "id") frames = frames).
  { unfold rename_column. rewrite rename_absent by done. now destruct frames. }
  assert (E2 : rename_column (lit "event_uuid") (lit "id")
                 (rename_column (lit "id") (lit "event_uuid") frames)
               = frames).
  { unfold rename_column. simpl. rewrite rename_back by done.
    now destruct frames. }
  unfold merge_frames. cbv zeta. now rewrite E1, E2.
Qed.

(** X15.  With unique labels in both tables, a frame table that has no
    [match_id] column, or neither an [event_uuid] nor an [id] column,
    makes the merge raise [KeyError], whether the event table has its
    key columns or not. *)
Theorem merge_without_key_column :
  NoDup (columns frames) ->
  NoDup (columns events) ->
  lit "match_id" ∉ columns frames
  ∨ (lit "event_uuid" ∉ columns frames) ∧ (lit "id" ∉ columns frames) ->
  merge_frames frames events = Raise KeyError.
Proof.
  intros Hn Hne Hmissing. unfold merge_frames, pd_merge_left. cbv zeta.
  simpl keys_check. unfold key_check.
  rewrite rename_count_other, rename_count_new by done.
  rewrite !filter_eq_count by done.
  repeat case_decide; simpl; try done; destruct Hmissing as [?|[? ?]]; done.
Qed.

(** X16.  When the event table has its two key columns, a frame table that
    has [match_id] and both an [event_uuid] and an [id] column has two
    [id] columns after the rename, and the merge raises [ValueError]. *)
Theorem merge_with_two_link_columns :
  NoDup (columns frames) ->
  NoDup (columns events) ->
  lit "match_id" ∈ columns frames ->
  lit "event_uuid" ∈ columns frames ->
  lit "id" ∈ columns frames ->
  lit "match_id" ∈ columns events ->
  lit "id" ∈ columns events ->
  merge_frames frames events = Raise ValueError.
Proof.
  intros Hn Hne Hm Hu Hi Hem Hei. unfold merge_frames, pd_merge_left.
  cbv zeta. simpl keys_check. unfold key_check.
  rewrite rename_count_other, rename_count_new by done.
  rewrite !filter_eq_once by done. reflexivity.
Qed.

Hypothesis inputs_ok : merge_inputs_ok frames events.

Lemma merge_frames_columns :
  exists merged,
    merge_frames frames events = Ok merged
    ∧ columns merged
      = ((λ c, if decide ((c ∉ [lit "match_id"; lit "id"])
                          ∧ (c ∈ columns events))
               then c ++ lit "_x" else c)
           <$> (rename_label (lit "event_uuid") (lit "id") <$> columns frames))
        ++ ((λ c, if decide (c ∈ rename_label (lit "event_uuid") (lit "id")
                                   <$> columns frames)
                  then c ++ lit "_y" else c)
              <$> event_only_columns events)
    ∧ rows merged = rows frames ≫= joined_rows frames events.
Proof.
  eexists. split; [now apply merge_frames_outcome|]. split; reflexivity.
Qed.


Lemma joined_rows_frame_part (l : list pyval) :
  length l = length (columns frames) ->
  take (length (columns frames)) <$> joined_rows frames events l
  = replicate
      (Nat.max 1 (length (filter (linked frames events l) (rows events)))) l.
Proof.
  intros Hl. rewrite <- joined_rows_length.
  apply const_fmap. intros i o Ho.
  apply (joined_rows_take frames events); [done|].
  apply list_elem_of_lookup. eauto.
Qed.


End MergerShape.

(* ================================================================== *)
(** ** More on names, paths and the metadata builder *)
(* ================================================================== *)

Section Names.
Context `{Builtins}.

(** X21.  The strings a sanitizer leaves as they are: for [sanitize_filename]
    those of alphanumeric characters, spaces, underscores and hyphens that
    do not end in whitespace, for [sanitize_team_name] those of
    alphanumeric characters. *)
Theorem sanitizer_fixed_points (s : str) :
  (sanitize_filename s = s
   <-> Forall (λ c, isalnum c || is_separator c = true) s
       ∧ (forall c, last s = Some c -> isspace c = false))
  ∧ (sanitize_team_name s = s <-> Forall (λ c, isalnum c = true) s).
Proof.
  split; split.
  - intros E. split.
    + rewrite <- E. apply sanitize_filename_allowed.
    + intros c. rewrite <- E. apply rstrip_last.
  - intros [Hall Hlast]. unfold sanitize_filename.
    rewrite filter_fixed by done. now apply rstrip_fixed.
  - intros E. rewrite <- E. apply sanitize_team_name_alnum.
  - apply filter_fixed.
Qed.

(** X19.  Whatever the cells of the row hold, a directory name that is
    computed starts with [GW], so [os.path.join] never takes it for an
    absolute path: the match directory is the base path, a separator if
    the base path needs one, and the name. *)
Theorem match_dir_below_base (row : gmap (list N) pyval)
    (base_path name : str) :
  match_dir_name row = Ok name ->
  (exists rest, name = lit "GW" ++ rest)
  ∧ os_path_join base_path name = base_path ++ path_sep base_path ++ name
  ∧ base_path `prefix_of` os_path_join base_path name.
Proof.
  intros Hname.
  assert (Hgw : exists rest, name = lit "GW" ++ rest).
  { unfold match_dir_name, getitem in Hname.
    destruct (row !! lit "home_team") as [hv|]; [|discriminate].
    simpl in Hname.
    destruct (sanitize_team_name_dyn hv) as [h|]; [|discriminate].
    simpl in Hname.
    destruct (row !! lit "away_team") as [av|]; [|discriminate].
    simpl in Hname.
    destruct (sanitize_team_name_dyn av) as [a|]; [|discriminate].
    simpl in Hname. injection Hname as <-. eauto. }
  split; [exact Hgw|].
  assert (Hjoin : os_path_join base_path name
                  = base_path ++ path_sep base_path ++ name).
  { apply os_path_join_relative. destruct Hgw as [rest ->]. done. }
  split; [exact Hjoin|]. rewrite Hjoin. now apply prefix_app_r.
Qed.

(** X20.  The file name of a lineup has no path separator, whatever the team
    is called: it is made of alphanumeric characters and the characters
    of [_lineups.csv], and the file lies directly in the match
    directory. *)
Theorem lineup_file_in_match_dir (match_dir team : str) :
  let file_name := sanitize_team_name team ++ lit "_lineups.csv" in
  (47%N ∉ file_name)
  ∧ Forall (λ c, isalnum c = true ∨ c ∈ lit "_lineups.csv") file_name
  ∧ lineup_path match_dir team
    = match_dir ++ path_sep match_dir ++ file_name.
Proof.
  intros file_name.
  assert (Hchars : Forall (λ c, isalnum c = true ∨ c ∈ lit "_lineups.csv")
                     file_name).
  { apply Forall_app. split.
    - eapply Forall_impl; [apply sanitize_team_name_alnum|]. auto.
    - apply Forall_forall. auto. }
  split; [|split; [exact Hchars|]].
  - intros Hin. rewrite Forall_forall in Hchars.
    destruct (Hchars _ Hin) as [Hal|Hlit].
    + rewrite isalnum_ascii in Hal by done. discriminate.
    + vm_compute in Hlit.
      repeat (apply elem_of_cons in Hlit as [?|Hlit]; [done|]).
      by apply elem_of_nil in Hlit.
  - apply os_path_join_relative, lineup_name_relative.
Qed.

(** X18.  The builder raises for one reason only: [int] rejects the home
    score, the away score or the week.  The other cells never make it
    raise, and a document it returns has the 24 fields in the order of
    the table, the first being the identifier it was given. *)
Theorem match_metadata_ok_iff (match_id : Z) (row : gmap (list N) pyval) :
  ((exists doc, match_metadata match_id row = Ok doc)
   <-> forall k v,
         k ∈ [lit "home_score"; lit "away_score"; lit "match_week"] ->
         row !! k = Some v -> exists z, py_int v = Ok z)
  ∧ (forall doc,
       match_metadata match_id row = Ok doc ->
       doc.*1 = metadata_table.*1.*1
       ∧ head doc = Some (lit "match_id", PInt match_id)).
Proof.
  unfold match_metadata, series_get. split; [split|].
  - intros [doc Hdoc] k v Hk Hv.
    destruct (py_int (default (PInt 0) (row !! lit "home_score")))
      as [hs|] eqn:Ehs; [|discriminate].
    destruct (py_int (default (PInt 0) (row !! lit "away_score")))
      as [aw|] eqn:Eaw; [|discriminate].
    destruct (py_int (default (PInt 0) (row !! lit "match_week")))
      as [wk|] eqn:Ewk; [|discriminate].
    repeat (apply elem_of_cons in Hk as [->|Hk];
            [rewrite Hv in *; simpl in *; eauto|]).
    by apply elem_of_nil in Hk.
  - intros Hint.
    destruct (int_cell_coerced row (lit "home_score")) as (hs & Ehs & _).
    { intros v. apply Hint. repeat constructor. }
    destruct (int_cell_coerced row (lit "away_score")) as (aw & Eaw & _).
    { intros v. apply Hint. repeat constructor. }
    destruct (int_cell_coerced row (lit "match_week")) as (wk & Ewk & _).
    { intros v. apply Hint. repeat constructor. }
    unfold series_get in Ehs, Eaw, Ewk. rewrite Ehs, Eaw, Ewk. simpl. eauto.
  - intros doc Hdoc.
    destruct (py_int (default (PInt 0) (row !! lit "home_score")));
      [|discriminate].
    destruct (py_int (default (PInt 0) (row !! lit "away_score")));
      [|discriminate].
    destruct (py_int (default (PInt 0) (row !! lit "match_week")));
      [|discriminate].
    simpl in Hdoc. injection Hdoc as <-. split; reflexivity.
Qed.

End Names.

(* ================================================================== *)
(** ** The further theorems at the sample runs *)
(* ================================================================== *)

Section MoreWitnesses.
#[local] Existing Instance ascii_builtins.

Lemma empty_world_fs_ok (d : RunData) :
  fs_ok (lit "matches") d Sample.empty_world.
Proof.
  split; [reflexivity|]. intros p Hp. by apply elem_of_empty in Hp.
Defined.

Lemma sample_fetch_ok : fetch_ok SampleRun.provider SampleRun.data.
Proof. repeat split. Defined.

Lemma loose_fetch_ok : fetch_ok SampleRun.loose_provider SampleRun.loose_data.
Proof. repeat split. Defined.

Lemma open_fetch_ok : fetch_ok SampleRun.open_provider SampleRun.open_data.
Proof. repeat split. Defined.

Lemma twin_fetch_ok : fetch_ok SampleRun.twin_provider SampleRun.twin_data.
Proof. repeat split. Defined.

Lemma successful_run_trace_witness :
  exists w',
    download_leverkusen_data SampleRun.provider (lit "matches")
      Sample.empty_world = (Ok tt, w')
    ∧ log w'
      = [EMatches 9 281;
         EMakedirs (lit "matches/GW5_BayerLeverkusen_3-0_BayernMunich");
         EEvents 123; EFrames 123; ELineups 123;
         EWrite (lit "matches/GW5_BayerLeverkusen_3-0_BayernMunich/BayerLeverkusen_lineups.csv");
         EWrite (lit "matches/GW5_BayerLeverkusen_3-0_BayernMunich/BayernMunich_lineups.csv");
         EWrite (lit "matches/GW5_BayerLeverkusen_3-0_BayernMunich/360_frames.csv");
         EWrite (lit "matches/GW5_BayerLeverkusen_3-0_BayernMunich/events.csv");
         EWrite (lit "matches/GW5_BayerLeverkusen_3-0_BayernMunich/metadata.json")].
Proof.
  edestruct (successful_run_trace SampleRun.provider (lit "matches")
               Sample.empty_world SampleRun.data)
    as (w' & Hrun & _ & _ & Hlog);
    [exact sample_fetch_ok|apply empty_world_fs_ok
    |reflexivity|reflexivity|reflexivity
    |apply empty_world_no_file_above|].
  exists w'. split; [exact Hrun|]. rewrite Hlog. reflexivity.
Defined.

Lemma nonempty_frames_written_witness :
  exists w' merged_df,
    download_leverkusen_data SampleRun.provider (lit "matches")
      Sample.empty_world = (Ok tt, w')
    ∧ length (rows merged_df) = 5%nat
    ∧ files w'
        !! lit "matches/GW5_BayerLeverkusen_3-0_BayernMunich/360_frames.csv"
      = Some (Csv merged_df).
Proof.
  edestruct (nonempty_frames_written SampleRun.provider (lit "matches")
               Sample.empty_world SampleRun.data)
    as (w' & Hrun & H360 & _);
    [exact sample_fetch_ok|apply empty_world_fs_ok
    |reflexivity|reflexivity|reflexivity|reflexivity
    |apply empty_world_no_file_above|].
  exists w'. eexists. split; [exact Hrun|]. split; [|exact H360].
  reflexivity.
Defined.



Lemma numpy_fetch_ok : fetch_ok SampleRun.numpy_provider SampleRun.numpy_data.
Proof. repeat split. Defined.


Lemma missing_key_aborts_witness :
  download_leverkusen_data SampleRun.teamless_provider (lit "matches")
    Sample.empty_world
  = (Raise KeyError, record (EMatches 9 281) Sample.empty_world).
Proof.
  eapply (missing_key_aborts SampleRun.teamless_provider (lit "matches")
            Sample.empty_world SampleRun.teamless_matches);
    [reflexivity|reflexivity|].
  right. split.
  - exists (PInt 123), 123. split; reflexivity.
  - left. reflexivity.
Defined.


Lemma main_stops_at_blocked_base_witness :
  main SampleRun.provider SampleRun.blocked_world
  = (Raise FileExistsError,
     record (EMakedirs (lit "matches")) SampleRun.blocked_world).
Proof.
  apply (main_stops_at_blocked_base SampleRun.provider
           SampleRun.blocked_world (Csv Sample.no_frames)).
  reflexivity.
Defined.

Lemma matches_path_component : path_component (lit "matches").
Proof.
  split; [done|]. split; apply (bool_decide_unpack _); vm_compute; exact I.
Defined.

Lemma create_data_directory_again_witness :
  exists w1 w2,
    create_data_directory (lit "matches") Sample.empty_world
    = (Ok (lit "matches"), w1)
    ∧ create_data_directory (lit "matches") w1 = (Ok (lit "matches"), w2)
    ∧ dirs w2 = dirs w1.
Proof.
  destruct (create_data_directory_again (lit "matches") Sample.empty_world)
    as (w1 & w2 & H1 & H2 & _ & Hd & _);
    [exact matches_path_component|reflexivity|].
  exists w1, w2. split; [exact H1|]. split; [exact H2|exact Hd].
Defined.

Lemma only_first_match_used_witness :
  download_leverkusen_data SampleRun.provider (lit "matches")
    Sample.empty_world
  = download_leverkusen_data SampleRun.two_matches_provider (lit "matches")
      Sample.empty_world.
Proof.
  apply (only_first_match_used SampleRun.provider
           SampleRun.two_matches_provider Sample.matches
           SampleRun.two_matches); reflexivity.
Defined.

Lemma rerun_overwrites_witness :
  exists w' w'',
    download_leverkusen_data SampleRun.provider (lit "matches")
      Sample.empty_world = (Ok tt, w')
    ∧ download_leverkusen_data SampleRun.provider (lit "matches") w'
      = (Ok tt, w'')
    ∧ dirs w'' = dirs w'
    ∧ files w'' = files w'.
Proof.
  destruct (download_leverkusen_data SampleRun.provider (lit "matches")
              Sample.empty_world) as [r w'] eqn:Hrun.
  assert (Hr : r = Ok tt).
  { apply (f_equal fst) in Hrun. vm_compute in Hrun. congruence. }
  subst r.
  destruct (rerun_overwrites SampleRun.provider (lit "matches")
              Sample.empty_world w' SampleRun.data sample_fetch_ok
              (empty_world_fs_ok _) Hrun)
    as (w'' & Hrun2 & Hd & Hf).
  exists w', w''. repeat split; assumption.
Defined.

Lemma last_lineup_wins_witness :
  exists w',
    download_leverkusen_data SampleRun.twin_provider (lit "matches")
      Sample.empty_world = (Ok tt, w')
    ∧ files w'
        !! lineup_path (lit "matches/GW5_BayerLeverkusen_3-0_BayernMunich")
             (lit "Team A")
      = Some (Csv Sample.no_frames).
Proof.
  destruct (download_leverkusen_data SampleRun.twin_provider (lit "matches")
              Sample.empty_world) as [r w'] eqn:Hrun.
  assert (Hr : r = Ok tt).
  { apply (f_equal fst) in Hrun. vm_compute in Hrun. congruence. }
  subst r. exists w'. split; [reflexivity|].
  apply (last_lineup_wins SampleRun.twin_provider (lit "matches")
           Sample.empty_world w' SampleRun.twin_data (lit "TeamA")
           Sample.no_frames [(lit "Team A", Sample.lineup)] []
           twin_fetch_ok (empty_world_fs_ok _) Hrun eq_refl).
  - intros tl Htl. by apply elem_of_nil in Htl.
  - reflexivity.
Defined.

End MoreWitnesses.

Section MergerWitnesses.
#[local] Existing Instance ascii_builtins.

Lemma link_column_named_id_witness :
  merge_frames SampleRun.id_frames Sample.events
  = merge_frames Sample.frames Sample.events.
Proof.
  destruct (link_column_named_id SampleRun.id_frames Sample.events)
    as [_ Hsame].
  - intros Hin. vm_compute in Hin.
    repeat (apply elem_of_cons in Hin as [?|Hin]; [done|]).
    by apply elem_of_nil in Hin.
  - rewrite <- Hsame. reflexivity.
Defined.

Lemma merge_without_key_column_witness :
  merge_frames SampleRun.loose_frames Sample.events = Raise KeyError.
Proof.
  apply (merge_without_key_column SampleRun.loose_frames Sample.events).
  - by_computing.
  - by_computing.
  - left. by_computing.
Defined.

Lemma merge_with_two_link_columns_witness :
  merge_frames SampleRun.double_frames Sample.events = Raise ValueError.
Proof.
  apply (merge_with_two_link_columns SampleRun.double_frames Sample.events);
    apply (bool_decide_unpack _); vm_compute; exact I.
Defined.

Lemma located_merge_inputs_ok :
  merge_inputs_ok SampleRun.located_frames SampleRun.located_events.
Proof.
  unfold merge_inputs_ok, wf_frame, ids_typed, dtypes_kept.
  split_and!; try by_computing; try (intros _; by_computing).
  apply suffixes_free_by_labels. by_computing.
Defined.

Lemma plain_merge_inputs_ok :
  merge_inputs_ok Sample.frames SampleRun.plain_events.
Proof.
  unfold merge_inputs_ok, wf_frame, ids_typed, dtypes_kept.
  split_and!; try by_computing; try (intros _; by_computing).
  apply suffixes_free_by_labels. by_computing.
Defined.



Lemma match_dir_below_base_witness :
  lit "matches"
  `prefix_of` os_path_join (lit "matches")
                (lit "GW5_BayerLeverkusen_3-0_BayernMunich").
Proof.
  apply (match_dir_below_base Sample.match_row (lit "matches")
           (lit "GW5_BayerLeverkusen_3-0_BayernMunich")).
  reflexivity.
Defined.

End MergerWitnesses.

(* ================================================================== *)
(** ** The checks of pandas, of [os.makedirs] and of [json.dump] at
       sample inputs *)
(* ================================================================== *)

Section Checks.
#[local] Existing Instance ascii_builtins.

(** The keys are looked up in the event table first: without [match_id]
    there, [KeyError] comes before the two [id] columns of the frame
    table are seen. *)
Example merge_event_key_missing :
  merge_frames SampleRun.double_frames SampleRun.keyless_events
  = Raise KeyError.
Proof. reflexivity. Qed.

(** Strings joined with numpy integers: [ValueError]. *)
Example merge_key_dtypes_clash :
  merge_frames Sample.frames SampleRun.numpy_events = Raise ValueError.
Proof. reflexivity. Qed.

(** A suffix that makes a label that is there already: [MergeError]. *)
Example merge_suffix_clash :
  merge_frames SampleRun.suffixed_frames SampleRun.located_events
  = Raise MergeError.
Proof. reflexivity. Qed.

(** Lists as keys: [TypeError]. *)
Example merge_list_keys :
  merge_frames SampleRun.listed_frames Sample.events = Raise TypeError.
Proof. reflexivity. Qed.

(** A frame row without an identifier is joined to the event row without
    one. *)
Example merge_null_keys :
  merge_frames SampleRun.numpy_frames SampleRun.anonymous_events
  = Ok {| columns := [lit "id"; lit "match_id"; lit "teammate"; lit "minute"];
          rows := [[PStr (lit "a"); PInt64 123; PInt 1; PInt 7];
                   [PNone; PInt64 123; PInt 0; PInt 8]] |}.
Proof. reflexivity. Qed.

Example makedirs_empty_path :
  makedirs [] Sample.empty_world
  = (Raise FileNotFoundError, record (EMakedirs []) Sample.empty_world).
Proof. reflexivity. Qed.

End Checks.
